(** * Prompt assembly and corpus loading of the Panoptic audit driver

    A shallow embedding of [questions.py]: the corpus loader [get_questions],
    the target-file inventory [questions_generator] and the three prompt
    composers [question_format], [validation_format] and
    [question_generator], followed by the properties of the specification
    that concern them.

    Python [str] values are represented by their UTF-8 encoding, one
    [ascii] per byte; a substring relation between two Python strings holds
    exactly when it holds between their encodings, UTF-8 being
    self-synchronising. *)

From Stdlib Require Import String Ascii List Bool Arith NArith ZArith Lia.
From Stdlib Require Import DecimalString.
Import ListNotations.
Open Scope string_scope.

(** The double quote, which a string literal cannot hold. *)
Definition dq : string := String "034"%char EmptyString.

(** The line feed. *)
Definition nl : string := String "010"%char EmptyString.

(** ** Text toolkit

    The vocabulary in which the properties are stated: occurrence of one
    text inside another, occurrence of several texts in a given order, and
    their executable counterparts. *)

Module Text.

(** [strip_prefix p s] is the rest of [s] after its prefix [p]. *)
Fixpoint strip_prefix (p s : string) : option string :=
  match p with
  | EmptyString => Some s
  | String a p' =>
      match s with
      | EmptyString => None
      | String b s' => if Ascii.eqb a b then strip_prefix p' s' else None
      end
  end.

(** [find_first p s] cuts [s] around the leftmost occurrence of [p]. *)
Fixpoint find_first (p s : string) : option (string * string) :=
  match strip_prefix p s with
  | Some r => Some (EmptyString, r)
  | None =>
      match s with
      | EmptyString => None
      | String c s' =>
          match find_first p s' with
          | Some (a, b) => Some (String c a, b)
          | None => None
          end
      end
  end.

(** The part of [s] after the leftmost occurrence of [p]. *)
Fixpoint after_first (p s : string) : option string :=
  match strip_prefix p s with
  | Some r => Some r
  | None =>
      match s with
      | EmptyString => None
      | String _ s' => after_first p s'
      end
  end.

(** The part of [s] before the leftmost occurrence of [p]. *)
Definition before_first (p s : string) : option string :=
  option_map fst (find_first p s).

Definition containsb (p s : string) : bool :=
  match after_first p s with Some _ => true | None => false end.

(** [p] occurs in [s]. *)
Definition contains (p s : string) : Prop :=
  exists a b, s = a ++ p ++ b.

(** The texts [ps] occur in [s] one after the other, without overlap. *)
Fixpoint in_order (ps : list string) (s : string) : Prop :=
  match ps with
  | [] => True
  | p :: ps' => exists a b, s = a ++ p ++ b /\ in_order ps' b
  end.

Fixpoint in_orderb (ps : list string) (s : string) : bool :=
  match ps with
  | [] => true
  | p :: ps' =>
      match after_first p s with
      | Some b => in_orderb ps' b
      | None => false
      end
  end.


Definition starts_with (p s : string) : Prop := exists r, s = p ++ r.

Definition starts_withb (p s : string) : bool :=
  match strip_prefix p s with Some _ => true | None => false end.

Fixpoint all2 {A B : Type} (f : A -> B -> bool) (l1 : list A) (l2 : list B)
  : bool :=
  match l1, l2 with
  | [], [] => true
  | a :: l1', b :: l2' => f a b && all2 f l1' l2'
  | _, _ => false
  end.

Definition ends_with (p s : string) : Prop := exists r, s = r ++ p.

(** Concatenation of the segments of a template, in order. *)
Fixpoint join (l : list string) : string :=
  match l with
  | [] => EmptyString
  | [x] => x
  | x :: l' => x ++ join l'
  end.

(** [pick from l positions] selects the segments of [l] at the given
    positions, which must increase strictly; the head of [l] has position
    [from]. *)
Fixpoint pick (from : nat) (l : list string) (positions : list nat)
  : option (list string) :=
  match positions with
  | [] => Some []
  | i :: positions' =>
      match l with
      | [] => None
      | x :: l' =>
          if Nat.eqb i from then
            option_map (cons x) (pick (S from) l' positions')
          else pick (S from) l' positions
      end
  end.

(** *** Templates with one repeated slot

    An f-string that names one variable is a list of literal texts with the
    value of the variable between each two of them. *)

Fixpoint fill (value : string) (literals : list string) : string :=
  match literals with
  | [] => EmptyString
  | [l] => l
  | l :: rest => l ++ value ++ fill value rest
  end.

(** The segments of a filled template: the groups of literal segments, with
    the value between each two groups. *)
Fixpoint with_slots (value : string) (groups : list (list string))
  : list (list string) :=
  match groups with
  | [] => []
  | [g] => [g]
  | g :: rest => g :: [value] :: with_slots value rest
  end.

Fixpoint char_in (c : ascii) (p : string) : bool :=
  match p with
  | EmptyString => false
  | String x p' => Ascii.eqb x c || char_in c p'
  end.

Definition first_char (s : string) : option ascii :=
  match s with
  | String c _ => Some c
  | EmptyString => None
  end.

Fixpoint last_char (s : string) : option ascii :=
  match s with
  | EmptyString => None
  | String c EmptyString => Some c
  | String _ s' => last_char s'
  end.

(** The character at an edge of a literal cannot be part of [p]. *)
Definition edge_free (p : string) (edge : option ascii) : bool :=
  match edge with
  | Some c => negb (char_in c p)
  | None => false
  end.

(** No occurrence of [p] in a filled template can lie in a literal or
    across the edge of one: [p] is in no literal, and the characters of the
    literals next to a slot are not characters of [p]. *)
Fixpoint guardsb (p : string) (first : bool) (literals : list string) : bool :=
  match literals with
  | [] => true
  | l :: rest =>
      negb (containsb p l)
      && (first || edge_free p (first_char l))
      && match rest with
         | [] => true
         | _ :: _ => edge_free p (last_char l)
         end
      && guardsb p false rest
  end.

(** Pieces of [s] between the occurrences of the separator character. *)
Fixpoint split_on (sep : ascii) (s : string) : list string :=
  match s with
  | EmptyString => [EmptyString]
  | String c s' =>
      if Ascii.eqb c sep then EmptyString :: split_on sep s'
      else match split_on sep s' with
           | [] => [String c EmptyString]
           | x :: xs => String c x :: xs
           end
  end.

(** Every second piece, starting with the second: the texts enclosed
    between pairs of the delimiter. *)
Fixpoint odd_items (l : list string) : list string :=
  match l with
  | _ :: x :: l' => x :: odd_items l'
  | _ => []
  end.

Definition enclosed (delim : ascii) (s : string) : list string :=
  odd_items (split_on delim s).

(** Blocks of [s] separated by an empty line. *)
Fixpoint paragraphs_aux (cur : string) (lines : list string) : list string :=
  match lines with
  | [] => [cur]
  | ln :: lines' =>
      match ln with
      | EmptyString => cur :: paragraphs_aux EmptyString lines'
      | _ =>
          paragraphs_aux
            (match cur with EmptyString => ln | _ => cur ++ nl ++ ln end) lines'
      end
  end.

Definition paragraphs (s : string) : list string :=
  filter (fun p => negb (String.eqb p EmptyString))
    (paragraphs_aux EmptyString (split_on "010"%char s)).

(** Lists of names as sets. *)
Definition subsetb (a b : list string) : bool :=
  forallb (fun x => existsb (String.eqb x) b) a.

Definition same_names (a b : list string) : Prop :=
  forall x, In x a <-> In x b.

Fixpoint distinctb (l : list string) : bool :=
  match l with
  | [] => true
  | x :: l' => negb (existsb (String.eqb x) l') && distinctb l'
  end.

(** Last component of a path. *)
Definition basename (path : string) : string :=
  last (split_on "/"%char path) EmptyString.

End Text.

(** ** Python values, exceptions and the file system

    [get_questions] opens a file, hands it to [json.load] and catches
    whatever is raised.  Raising is modelled by a result type, the catch by
    [try_except]. *)

Module Py.

(** The exceptions that can leave [open], [read] or [json.load]. *)
Inductive exn : Type :=
| FileNotFoundError
| PermissionError
| IsADirectoryError
| OSError
| UnicodeDecodeError
| JSONDecodeError (msg : string)
| ValueError
| RecursionError
| MemoryError
| KeyboardInterrupt.

Inductive result (A : Type) : Type :=
| Return (a : A)
| Raise (e : exn).

Arguments Return {A} a.
Arguments Raise {A} e.

Definition bind {A B : Type} (m : result A) (k : A -> result B) : result B :=
  match m with
  | Return a => k a
  | Raise e => Raise e
  end.

(** [try: m  except: h]: a bare [except] catches every exception. *)
Definition try_except {A : Type} (m : result A) (h : exn -> result A)
  : result A :=
  match m with
  | Return a => Return a
  | Raise e => h e
  end.

Definition raises {A : Type} (m : result A) : Prop :=
  exists e, m = Raise e.

End Py.

Import Py.

Declare Scope py_scope.
Delimit Scope py_scope with py.
Notation "x <- m ;; k" := (bind m (fun x => k))
  (at level 61, m at next level, right associativity) : py_scope.
Notation "' p <- m ;; k" := (bind m (fun p => k))
  (at level 61, p pattern, m at next level, right associativity) : py_scope.
Open Scope py_scope.

(** What [json.load] can return. A [float] is given by the numeral it was
    read from and is the double that Python's [float] makes of that
    numeral, an infinity when it is out of range, so that two numerals may
    give one [float]; a [dict] keeps its keys in insertion order. *)
#[warnings="-register-all"]
Inductive json : Type :=
| JNull
| JBool (b : bool)
| JInt (z : Z)
| JFloat (numeral : string)
| JStr (s : string)
| JList (items : list json)
| JDict (pairs : list (string * json)).

(** The empty list [[]], which [get_questions] returns on failure. *)
Definition empty_list : json := JList [].

Definition is_list (v : json) : bool :=
  match v with
  | JList _ => true
  | _ => false
  end.

(** State of one path of the file system, as [open] and [read] see it. *)
Inductive file_state : Type :=
| Absent
| Unreadable (e : exn)
| Content (text : string).

Definition filesystem : Type := string -> file_state.

(** [open(path, "r")] followed by reading the whole file. *)
Definition open_read (fs : filesystem) (path : string) : result string :=
  match fs path with
  | Absent => Raise FileNotFoundError
  | Unreadable e => Raise e
  | Content text => Return text
  end.

(** The path that the loader reads. *)
Definition corpus_path : string := "all_questions.json".

(** A file system with one file, at the path of the corpus. *)
Definition corpus_only (state : file_state) : filesystem :=
  fun path => if String.eqb path corpus_path then state else Absent.

(** *** The loader *)

Section Loader.

(** [json.load] applied to the text of the file. *)
Variable json_load : string -> result json.

(** [questions.py], lines 6-12. *)
Definition get_questions (fs : filesystem) : result json :=
  try_except
    (text <- open_read fs "all_questions.json" ;; json_load text)
    (fun _ => Return empty_list).

(** The states of the corpus location from which nothing can be loaded:
    no file, a file that cannot be opened or read, a text that
    [json.load] rejects. *)
Inductive corpus_unavailable (fs : filesystem) : Prop :=
| corpus_absent :
    fs corpus_path = Absent -> corpus_unavailable fs
| corpus_unreadable (e : exn) :
    fs corpus_path = Unreadable e -> corpus_unavailable fs
| corpus_malformed (text : string) (e : exn) :
    fs corpus_path = Content text -> json_load text = Raise e ->
    corpus_unavailable fs.

End Loader.

(** *** Module constants, [questions.py] lines 3 and 17-30 *)

Definition BASE_URL : string :=
  "https://deepwiki.com/code-423n4/2025-12-panoptic".

Definition questions_generator : list string :=
  [ "./contracts/PanopticPool.sol";
    "./contracts/RiskEngine.sol";
    "./contracts/types/OraclePack.sol";
    "./contracts/types/MarketState.sol";
    "./contracts/types/PoolData.sol";
    "./contracts/types/RiskParameters.sol";
    "./contracts/SemiFungiblePositionManager.sol";
    "./contracts/SemiFungiblePositionManagerV4.sol";
    "./contracts/CollateralTracker.sol";
    "./contracts/libraries/PanopticMath.sol";
    "./contracts/libraries/Math.sol";
    "./contracts/types/TokenId.sol" ].

(** ** The JSON decoder behind [json.load]

    A model of the scanner of Python's [json] package as CPython runs it
    (the C scanner, strict mode, no hooks, default limits), which is not
    part of this program: it is what the loader calls, and it makes the
    examples of corpus files concrete.  The properties of the loader are
    stated for an arbitrary decoder. *)

Module Json.

(** The longest integer literal, in digits, that [int] converts
    ([sys.get_int_max_str_digits()]); a longer one raises [ValueError]. *)
Definition int_max_str_digits : N := 4300.

(** How deep arrays and objects may nest: each takes a level of Python's
    recursion limit of 1000, of which the six frames from the module down
    to the scanner are already in use when [questions.py] is run. *)
Definition nesting_limit : nat := 994.

Definition is_ws (c : ascii) : bool :=
  Ascii.eqb c " " || Ascii.eqb c "009" || Ascii.eqb c "010" || Ascii.eqb c "013".

Fixpoint skip_ws (s : string) : string :=
  match s with
  | String c s' => if is_ws c then skip_ws s' else s
  | EmptyString => s
  end.

Definition is_digit (c : ascii) : bool :=
  let n := N_of_ascii c in (48 <=? n)%N && (n <=? 57)%N.

Definition digit_value (c : ascii) : Z := Z.of_N (N_of_ascii c) - 48.

Definition hex_value (c : ascii) : option N :=
  let n := N_of_ascii c in
  if (48 <=? n)%N && (n <=? 57)%N then Some (n - 48)%N
  else if (65 <=? n)%N && (n <=? 70)%N then Some (n - 55)%N
  else if (97 <=? n)%N && (n <=? 102)%N then Some (n - 87)%N
  else None.

(** Longest run of digits at the head of [s], and what follows it. *)
Fixpoint span_digits (s : string) : string * string :=
  match s with
  | String c s' =>
      if is_digit c then let '(d, r) := span_digits s' in (String c d, r)
      else (EmptyString, s)
  | EmptyString => (EmptyString, EmptyString)
  end.

Fixpoint decimal (acc : Z) (digits : string) : Z :=
  match digits with
  | String c d => decimal (10 * acc + digit_value c) d
  | EmptyString => acc
  end.

(** UTF-8 encoding of a code point; a surrogate that an escape leaves
    unpaired is encoded as any other code point of its range. *)
Definition utf8 (cp : N) : string :=
  let byte (n : N) := String (ascii_of_N n) EmptyString in
  let cont (n : N) := byte (128 + N.land n 63)%N in
  if (cp <? 128)%N then byte cp
  else if (cp <? 2048)%N then byte (192 + N.shiftr cp 6)%N ++ cont cp
  else if (cp <? 65536)%N then
    byte (224 + N.shiftr cp 12)%N ++ cont (N.shiftr cp 6) ++ cont cp
  else
    byte (240 + N.shiftr cp 18)%N ++ cont (N.shiftr cp 12)
      ++ cont (N.shiftr cp 6) ++ cont cp.

Definition hex4 (a b c d : ascii) : option N :=
  match hex_value a, hex_value b, hex_value c, hex_value d with
  | Some x, Some y, Some z, Some w => Some (4096 * x + 256 * y + 16 * z + w)%N
  | _, _, _, _ => None
  end.

Definition simple_escape (c : ascii) : option ascii :=
  if Ascii.eqb c "034" then Some "034"%char
  else if Ascii.eqb c "\" then Some "\"%char
  else if Ascii.eqb c "/" then Some "/"%char
  else if Ascii.eqb c "b" then Some "008"%char
  else if Ascii.eqb c "f" then Some "012"%char
  else if Ascii.eqb c "n" then Some "010"%char
  else if Ascii.eqb c "r" then Some "013"%char
  else if Ascii.eqb c "t" then Some "009"%char
  else None.

Definition is_high_surrogate (n : N) : bool := (55296 <=? n)%N && (n <=? 56319)%N.
Definition is_low_surrogate (n : N) : bool := (56320 <=? n)%N && (n <=? 57343)%N.

(** A low surrogate escape at the head of [s], if it completes a pair. *)
Definition low_surrogate_escape (s : string) : result (option (N * string)) :=
  match s with
  | String b (String u (String a1 (String a2 (String a3 (String a4 (String c r)))))) =>
      if Ascii.eqb b "\" && Ascii.eqb u "u" then
        match hex4 a1 a2 a3 a4 with
        | Some lo =>
            Return (if is_low_surrogate lo then Some (lo, String c r) else None)
        | None => Raise (JSONDecodeError "Invalid \uXXXX escape")
        end
      else Return None
  | _ => Return None
  end.

(** [scanstring]: the text of a string literal whose opening quote has been
    read, in strict mode, and what follows its closing quote. *)
Fixpoint scanstring (fuel : nat) (s : string) : result (string * string) :=
  match fuel with
  | O => Raise RecursionError
  | S fuel' =>
      match s with
      | EmptyString => Raise (JSONDecodeError "Unterminated string starting at")
      | String c s' =>
          if Ascii.eqb c "034" then Return (EmptyString, s')
          else if Ascii.eqb c "\" then
            match s' with
            | EmptyString => Raise (JSONDecodeError "Unterminated string starting at")
            | String e s'' =>
                if Ascii.eqb e "u" then
                  match s'' with
                  | String a1 (String a2 (String a3 (String a4 (String c' r0)))) =>
                      let r := String c' r0 in
                      match hex4 a1 a2 a3 a4 with
                      | None => Raise (JSONDecodeError "Invalid \uXXXX escape")
                      | Some hi =>
                          pair_ <- (if is_high_surrogate hi
                                    then low_surrogate_escape r
                                    else Return None) ;;
                          match pair_ with
                          | Some (lo, r') =>
                              ' (t, rest) <- scanstring fuel' r' ;;
                              Return
                                (utf8 (65536 + 1024 * (hi - 55296) + (lo - 56320))%N ++ t,
                                 rest)
                          | None =>
                              ' (t, rest) <- scanstring fuel' r ;;
                              Return (utf8 hi ++ t, rest)
                          end
                      end
                  | _ => Raise (JSONDecodeError "Invalid \uXXXX escape")
                  end
                else
                  match simple_escape e with
                  | Some x =>
                      ' (t, rest) <- scanstring fuel' s'' ;;
                      Return (String x t, rest)
                  | None => Raise (JSONDecodeError "Invalid \escape")
                  end
            end
          else if (N_of_ascii c <? 32)%N then
            Raise (JSONDecodeError "Invalid control character at")
          else
            ' (t, rest) <- scanstring fuel' s' ;;
            Return (String c t, rest)
      end
  end.

(** A number at the head of [s]: an [int] when it has neither fraction nor
    exponent, unless it has too many digits, a [float] otherwise. [None]
    when no number starts here. *)
Definition match_number (s : string) : option (result json * string) :=
  let '(neg, s1) :=
    match s with
    | String c r => if Ascii.eqb c "-" then (true, r) else (false, s)
    | EmptyString => (false, s)
    end in
  let sign := if neg then "-" else EmptyString in
  let int_part :=
    match s1 with
    | String c r =>
        if Ascii.eqb c "0" then Some ("0", r)
        else if is_digit c then let '(d, r') := span_digits r in Some (String c d, r')
        else None
    | EmptyString => None
    end in
  match int_part with
  | None => None
  | Some (ip, s2) =>
      let '(frac, s3) :=
        match s2 with
        | String c r =>
            if Ascii.eqb c "." then
              match span_digits r with
              | (EmptyString, _) => (EmptyString, s2)
              | (d, r') => ("." ++ d, r')
              end
            else (EmptyString, s2)
        | EmptyString => (EmptyString, s2)
        end in
      let '(expo, s4) :=
        match s3 with
        | String c r =>
            if Ascii.eqb c "e" || Ascii.eqb c "E" then
              let '(sg, r1) :=
                match r with
                | String g r0 =>
                    if Ascii.eqb g "+" || Ascii.eqb g "-"
                    then (String g EmptyString, r0) else (EmptyString, r)
                | EmptyString => (EmptyString, r)
                end in
              match span_digits r1 with
              | (EmptyString, _) => (EmptyString, s3)
              | (d, r') => (String c sg ++ d, r')
              end
            else (EmptyString, s3)
        | EmptyString => (EmptyString, s3)
        end in
      match frac, expo with
      | EmptyString, EmptyString =>
          let v := decimal 0 ip in
          if (int_max_str_digits <? N.of_nat (String.length ip))%N
          then Some (Raise ValueError, s4)
          else Some (Return (JInt (if neg then - v else v)), s4)
      | _, _ => Some (Return (JFloat (sign ++ ip ++ frac ++ expo)), s4)
      end
  end.

(** [d[key] = value] on a [dict] in insertion order. *)
Fixpoint dict_set (d : list (string * json)) (key : string) (value : json)
  : list (string * json) :=
  match d with
  | [] => [(key, value)]
  | (k, v) :: d' =>
      if String.eqb k key then (k, value) :: d'
      else (k, v) :: dict_set d' key value
  end.

Definition expecting_value : exn := JSONDecodeError "Expecting value".

(** [scan_once] with the array and object parsers it calls. [depth] is
    the number of levels of nesting still allowed: entering an array or an
    object with none left raises [RecursionError]. The fuel bounds the
    number of parser calls, each of which reads at least one character;
    the callers give the length of the text plus one. *)
Fixpoint scan_once (fuel depth : nat) (s : string) {struct fuel}
  : result (json * string) :=
  match fuel with
  | O => Raise RecursionError
  | S fuel' =>
      match s with
      | EmptyString => Raise expecting_value
      | String c s' =>
          if Ascii.eqb c "034" then
            ' (t, rest) <- scanstring (String.length s) s' ;;
            Return (JStr t, rest)
          else if Ascii.eqb c "{" then
            match depth with
            | O => Raise RecursionError
            | S depth' =>
                let s1 := skip_ws s' in
                match s1 with
                | String c1 r1 =>
                    if Ascii.eqb c1 "}" then Return (JDict [], r1)
                    else parse_members fuel' depth' s1 []
                | EmptyString =>
                    Raise (JSONDecodeError
                             "Expecting property name enclosed in double quotes")
                end
            end
          else if Ascii.eqb c "[" then
            match depth with
            | O => Raise RecursionError
            | S depth' =>
                let s1 := skip_ws s' in
                match s1 with
                | String c1 r1 =>
                    if Ascii.eqb c1 "]" then Return (JList [], r1)
                    else parse_items fuel' depth' s1 []
                | EmptyString => Raise expecting_value
                end
            end
          else
            match Text.strip_prefix "null" s, Text.strip_prefix "true" s,
                  Text.strip_prefix "false" s with
            | Some r, _, _ => Return (JNull, r)
            | _, Some r, _ => Return (JBool true, r)
            | _, _, Some r => Return (JBool false, r)
            | None, None, None =>
                match Text.strip_prefix "-Infinity" s, match_number s with
                | Some r, _ => Return (JFloat "-Infinity", r)
                | None, Some (number, r) => v <- number ;; Return (v, r)
                | None, None =>
                    match Text.strip_prefix "NaN" s,
                          Text.strip_prefix "Infinity" s with
                    | Some r, _ => Return (JFloat "NaN", r)
                    | _, Some r => Return (JFloat "Infinity", r)
                    | None, None => Raise expecting_value
                    end
                end
            end
      end
  end

with parse_items (fuel depth : nat) (s : string) (acc : list json)
  {struct fuel} : result (json * string) :=
  match fuel with
  | O => Raise RecursionError
  | S fuel' =>
      ' (v, r) <- scan_once fuel' depth s ;;
      match skip_ws r with
      | String c r1 =>
          if Ascii.eqb c "]" then Return (JList (rev (v :: acc)), r1)
          else if Ascii.eqb c "," then
            parse_items fuel' depth (skip_ws r1) (v :: acc)
          else Raise (JSONDecodeError "Expecting ',' delimiter")
      | EmptyString => Raise (JSONDecodeError "Expecting ',' delimiter")
      end
  end

with parse_members (fuel depth : nat) (s : string)
  (acc : list (string * json)) {struct fuel} : result (json * string) :=
  match fuel with
  | O => Raise RecursionError
  | S fuel' =>
      match s with
      | String q s' =>
          if Ascii.eqb q "034" then
            ' (key, r) <- scanstring (String.length s) s' ;;
            match skip_ws r with
            | String c r1 =>
                if Ascii.eqb c ":" then
                  ' (v, r2) <- scan_once fuel' depth (skip_ws r1) ;;
                  let acc' := dict_set acc key v in
                  match skip_ws r2 with
                  | String c2 r3 =>
                      if Ascii.eqb c2 "}" then Return (JDict acc', r3)
                      else if Ascii.eqb c2 "," then
                        parse_members fuel' depth (skip_ws r3) acc'
                      else Raise (JSONDecodeError "Expecting ',' delimiter")
                  | EmptyString =>
                      Raise (JSONDecodeError "Expecting ',' delimiter")
                  end
                else Raise (JSONDecodeError "Expecting ':' delimiter")
            | EmptyString => Raise (JSONDecodeError "Expecting ':' delimiter")
            end
          else
            Raise (JSONDecodeError
                     "Expecting property name enclosed in double quotes")
      | EmptyString =>
          Raise (JSONDecodeError
                   "Expecting property name enclosed in double quotes")
      end
  end.

(** [json.loads]: one value, surrounded by blanks, and nothing else. *)
Definition loads (s : string) : result json :=
  ' (v, r) <- scan_once (S (String.length s)) nesting_limit (skip_ws s) ;;
  match skip_ws r with
  | EmptyString => Return v
  | String _ _ => Raise (JSONDecodeError "Extra data")
  end.

End Json.

(** The loader as it runs, on Python's own decoder. *)
Definition load_corpus (fs : filesystem) : result json :=
  get_questions Json.loads fs.

(** ** Template of [question_format] *)

(** Persona framing, up to the slot that receives the question; [questions.py], lines 45-53. *)
Definition qf_persona : string :=
"
You are an **Elite DeFi Security Auditor** specializing in 
options trading protocols, collateralized lending systems, oracle manipulation 
resistance, and automated market maker integrations. Your task is to analyze 
the **Panoptic Protocol** codebase—a permissionless options trading protocol 
built on Uniswap V3/V4 featuring fully collateralized positions, dynamic 
risk calculations, liquidation mechanisms, and premium settlement—through the 
lens of this single security question: 

**Security Question (scope for this run):** ".

(** Protocol context and architecture primer; [questions.py], lines 55-67. *)
Definition qf_architecture : string :=
"

**PANOPTIC PROTOCOL CONTEXT:**

**Architecture**: Panoptic enables perpetual options trading on Uniswap pools by 
representing options as liquidity positions. Selling options adds liquidity to 
Uniswap (short positions), while buying options removes liquidity (long 
positions). The protocol maintains full collateralization through dynamic 
margin requirements calculated by the RiskEngine, with cross-collateralization 
between tokens and adaptive interest rates based on pool utilization. 

Think in invariant 
Check every logic entry that could affect the protocol base on the question provided 
Look at the exact file provided and other places also if it can cause a severe vuln 
Think in an elite way becasue there is always a logic vuln that could occur 

".

(** Component inventory with declared sizes; [questions.py], lines 69-86. *)
Definition qf_key_components : string :=
"**Key Components**: 

* **Position Management**: `PanopticPool.sol` (1183 nSLOC - main orchestrator 
  with dispatch entry points), `SemiFungiblePositionManager.sol` (673 nSLOC - 
  position engine handling multi-leg TokenId encoding), 
  `SemiFungiblePositionManagerV4.sol` (631 nSLOC - V4 compatibility)

* **Risk & Collateral**: `RiskEngine.sol` (1294 nSLOC - solvency calculations, 
  liquidation bonuses, force exercise costs), `CollateralTracker.sol` (863 nSLOC - 
  ERC4626 vaults with share accounting, interest accrual, virtual shares)

* **Oracle & Math**: `OraclePack.sol` (291 nSLOC - multi-oracle system with EMA 
  safeguards), `PanopticMath.sol` (369 nSLOC - options pricing and conversions), 
  `Math.sol` (641 nSLOC - generic mathematical utilities)

* **Types & Parameters**: `RiskParameters.sol` (72 nSLOC - protocol parameters), 
  `MarketState.sol` (65 nSLOC - interest rate state), `PoolData.sol` (42 nSLOC - 
  pool configuration), `TokenId.sol` (232 nSLOC - position encoding)

".

(** Scope statement; [questions.py], lines 88-90. *)
Definition qf_files_in_scope : string :=
"**Files in Scope**: All 11 core contracts in the `contracts/` directory. 
**Test files** under `./test/` are **out of scope** for vulnerability analysis 
but may be referenced for understanding expected behavior.

".

(** Heading of the invariant catalog; [questions.py], line 92. *)
Definition qf_invariants_heading : string :=
"**CRITICAL INVARIANTS (derived from protocol specification and code):**

".

(** The numbered invariant catalog, one paragraph per entry; [questions.py], lines 94-177. *)
Definition qf_invariant_catalog : string :=
"1. **Solvency Maintenance**: All accounts must satisfy 
   `balance0 + convert(scaledSurplus1) >= maintReq0` AND 
   `balance1 + convert(scaledSurplus0) >= maintReq1` at oracle tick. 
   Insolvent positions must be liquidated immediately.

2. **Collateral Conservation**: Total assets must equal 
   `s_depositedAssets + s_assetsInAMM + unrealizedGlobalInterest` at all times. 
   Asset accounting errors can cause protocol insolvency.

3. **Share Price Monotonicity**: Share price (`totalAssets() / totalSupply()`) 
   must be non-decreasing except for protocol-favorable rounding. Share price 
   manipulation allows asset drainage.

4. **Interest Index Monotonicity**: Global `borrowIndex` must be monotonically 
   increasing starting from 1e18 (WAD). Interest calculation bugs enable 
   unlimited asset minting.

5. **Cross-Collateral Limits**: Cross-buffer ratio must scale conservatively 
   with utilization, dropping to zero at 90% utilization. Incorrect cross-collateral 
   causes systemic undercollateralization.

6. **Position Size Limits**: Individual positions limited by available Uniswap 
   liquidity and `MAX_SPREAD = 90%`. Position size bypasses enable market manipulation.

7. **Oracle Delta Limits**: Fast/slow oracle delta ≤ 953 ticks (~10%), median/slow 
   delta ≤ 2×MAX_TICKS_DELTA. Oracle manipulation enables profitable liquidations.

8. **Safe Mode Activation**: Protocol must enter safe mode when oracle deltas exceed 
   thresholds. Safe mode failures allow price manipulation attacks.

9. **TWAP Accuracy**: TWAP calculations must use sufficient time windows to prevent 
   manipulation. Inaccurate TWAP enables liquidation attacks.

10. **Price Consistency**: All operations in a single transaction must use consistent 
    oracle tick(s). Inconsistent pricing causes arbitrage losses.

11. **Liquidation Price Bounds**: Current tick must be within 513 ticks of TWAP during 
    liquidation (~5% deviation). TWAP manipulation enables forced liquidations.

12. **Position Encoding Validity**: TokenId encoding must produce valid tick ranges 
    and liquidity amounts. Invalid encoding can brick positions permanently.

13. **Leg Count Limits**: Users cannot exceed `MAX_OPEN_LEGS = 33` total position 
    legs. Limit bypasses cause gas griefing and state bloat.

14. **Premium Accounting**: Premium distribution must be proportional to liquidity 
    share in each chunk. Incorrect accounting allows premium manipulation.

15. **Force Exercise Costs**: Base cost of 1.024% for in-range, 1 bps for out-of-range 
    positions. Cost calculation errors enable forced exercise exploitation.

16. **Liquidation Completeness**: Liquidations must close all positions held by the 
    liquidatee. Partial liquidations leave residual risk.

17. **Asset Accounting**: `totalSupply()` must equal `_internalSupply + s_creditedShares` 
    at all times. Share supply manipulation enables unlimited minting.

18. **Deposit Limits**: Deposits must not exceed `type(uint104).max`, withdrawals must 
    leave ≥1 asset. Limit bypasses cause accounting overflow.

19. **Share Transfer Restrictions**: Users with open positions cannot transfer shares 
    via `transfer()` or `transferFrom()`. Restriction bypass enables collateral theft.

20. **Credited Shares Logic**: `s_creditedShares` only increases on position creation, 
    decreases on closure. Incorrect tracking breaks share supply invariants.

21. **Interest Accuracy**: Interest owed must equal 
    `netBorrows * (currentBorrowIndex - userBorrowIndex) / userBorrowIndex`. 
    Calculation errors cause interest manipulation.

22. **Liquidation Bonus Caps**: Bonus cannot exceed liquidatee's pre-liquidation 
    collateral balance. Excessive bonuses cause protocol loss.

23. **Premium Haircutting**: Premium must be clawed back if protocol loss exists 
    after liquidation. Missing haircuts enable economic exploits.

24. **Protocol Loss Limits**: Share supply approaching 2^256-1 can cause various 
    reverts and overflows. Supply overflow prevents all operations.

25. **Force Exercise Validation**: Only long legs contribute to force exercise costs, 
    must account for token deltas. Incorrect validation enables forced exercise theft.

26. **Solvency Check Timing**: Solvency must be checked at oracle tick, not current 
    tick, to prevent manipulation. Incorrect timing enables liquidation attacks.

".

(** Investigation mission; [questions.py], lines 179-200. *)
Definition qf_mission : string :=
"**YOUR INVESTIGATION MISSION:**

Accept the premise of the security question and explore **all** relevant 
code paths, data structures, state transitions, and cross-contract 
interactions related to it. Do not settle for surface observations—trace 
execution flows through position minting → risk validation → collateral 
management → liquidation flows.

Your goal is to find **one** concrete, exploitable vulnerability tied to 
the question that an attacker, liquidator, or malicious user could exploit. 
Focus on: 

* Business-logic flaws (incorrect validation, missing checks)
* Mathematical errors (overflow, underflow, precision loss, rounding)
* Race conditions (concurrent position operations, share accounting)
* Oracle manipulation (price feeds, TWAP calculations)
* Collateral calculation bugs (margin requirements, cross-collateralization)
* Liquidation vulnerabilities (bonus extraction, premature liquidation)
* Premium settlement errors (distribution, haircutting)
* Interest accrual manipulation (index calculations, rate determination)
* Share supply attacks (minting, burning, virtual shares)
* Position encoding exploits (TokenId manipulation, leg bypass)

".

(** Attack-surface checklists by component; [questions.py], lines 202-266. *)
Definition qf_attack_surface : string :=
"**ATTACK SURFACE EXPLORATION:**

1. **Position Minting/Burning** (`PanopticPool.sol`, `SemiFungiblePositionManager.sol`):
   - TokenId encoding with invalid tick ranges or liquidity amounts
   - Position size limits bypass through multi-leg strategies
   - Solvency check timing between oracle and current ticks
   - Commission calculation errors on mint/burn operations
   - Premium settlement race conditions during position closure
   - Force exercise cost calculation manipulation
   - Position balance tracking inconsistencies

2. **Risk Calculations** (`RiskEngine.sol`):
   - Collateral requirement calculation errors
   - Cross-collateralization buffer miscalculation
   - Liquidation bonus extraction beyond intended amounts
   - Solvency check failures at extreme price movements
   - Interest rate model manipulation through utilization attacks
   - Oracle delta threshold bypass enabling manipulation
   - Force exercise cost rounding errors

3. **Collateral Management** (`CollateralTracker.sol`):
   - Share price manipulation through asset accounting errors
   - Virtual share delegation/revoke race conditions
   - Interest accrual calculation bugs enabling unlimited minting
   - Share supply overflow preventing all operations
   - Premium settlement distribution errors
   - Liquidation bonus settlement vulnerabilities
   - Deposit/withdrawal limit bypasses

4. **Oracle System** (`OraclePack.sol`, `PanopticMath.sol`):
   - Price manipulation through EMA oracle attacks
   - TWAP calculation insufficient time windows
   - Safe mode activation failures
   - Price conversion rounding errors
   - Oracle tick inconsistency between operations
   - Median tick buffer manipulation

5. **Liquidation Mechanism** (`PanopticPool.sol`, `RiskEngine.sol`):
   - Premature liquidation through oracle manipulation
   - Liquidation bonus extraction exceeding collateral
   - Premium haircutting failures causing protocol loss
   - Partial liquidation leaving residual positions
   - Liquidatee collateral calculation errors
   - Force liquidation during stale oracle conditions

6. **Interest Rate System** (`MarketState.sol`, `RiskEngine.sol`):
   - Borrow index manipulation enabling interest theft
   - Utilization calculation errors affecting rates
   - Compound interest calculation overflow/underflow
   - Rate boundary violations (exceeding min/max)
   - Interest state corruption blocking withdrawals

7. **Premium Settlement** (`PanopticPool.sol`, `CollateralTracker.sol`):
   - Premium accumulation manipulation
   - Settled token accounting errors
   - Gross premium calculation inaccuracies
   - Premium distribution ratio errors
   - Long premium settlement failures

8. **Mathematical Operations** (`PanopticMath.sol`, `Math.sol`):
   - Price conversion rounding errors
   - Liquidity calculation overflow/underflow
   - Square root price calculation errors
   - Token amount conversion precision loss
   - Tick-to-price conversion manipulation

".

(** Protocol-specific attack vectors; [questions.py], lines 268-299. *)
Definition qf_attack_vectors : string :=
"**PANOPTIC-SPECIFIC ATTACK VECTORS:**

- **Collateral Undercalculation**: Can attackers manipulate position parameters to 
  reduce collateral requirements below actual risk, enabling undercollateralized positions?
- **Oracle Manipulation**: Can attackers manipulate EMA or TWAP oracles to trigger 
  profitable liquidations or force exercises?
- **Liquidation Bonus Extraction**: Can liquidators extract bonuses exceeding the 
  liquidatee's collateral through calculation errors?
- **Share Price Manipulation**: Can attackers manipulate share price calculations 
  to drain assets from CollateralTracker vaults?
- **Interest Accrual Bugs**: Can interest calculation errors enable unlimited asset 
  minting or interest avoidance?
- **Premium Settlement Exploits**: Can attackers manipulate premium accumulation 
  or settlement to extract value from other users?
- **Position Encoding Attacks**: Can invalid TokenId encoding brick positions 
  permanently or bypass position limits?
- **Cross-Collateralization Bypass**: Can attackers exploit cross-collateral 
  calculations to become systemically undercollateralized?
- **Force Exercise Cost Errors**: Can incorrect cost calculations enable 
  profitable forced exercises at victims' expense?
- **Virtual Share Exploits**: Can delegation/revoke mechanisms be exploited to 
  manipulate share supply or bypass restrictions?
- **Protocol Loss Extraction**: Can attackers cause protocol loss and extract 
  value through premium haircutting failures?
- **Solvency Check Timing**: Can timing differences between oracle and current 
  ticks enable liquidation manipulation?
- **Interest Rate Manipulation**: Can utilization manipulation affect interest 
  rates to enable borrowing attacks?
- **Commission Calculation Errors**: Can commission calculation errors enable 
  fee avoidance or excessive charges?
- **TWAP Deviation Bypass**: Can attackers bypass TWAP deviation limits to 
  liquidate at manipulated prices?

".

(** Trust-model statement; [questions.py], lines 301-310. *)
Definition qf_trust_model : string :=
"**TRUST MODEL:**

**Trusted Roles**: Uniswap pools, oracle data providers, guardian addresses. 
Do **not** assume these actors behave maliciously unless the question explicitly 
explores compromised oracle or Uniswap scenarios.

**Untrusted Actors**: Any user minting/burning positions, liquidators, force 
exercisers, attackers attempting price manipulation. Focus your analysis on bugs 
exploitable by untrusted actors without requiring oracle compromise or Uniswap 
manipulation.

".

(** Known-issue exclusion list; [questions.py], lines 312-324. *)
Definition qf_known_issues : string :=
"**KNOWN ISSUES / EXCLUSIONS:**

- Cryptographic primitives (ECDSA, SHA256) are assumed secure
- Uniswap pool manipulation (assumed resistant to flash loan attacks)
- Oracle data accuracy (oracles are trusted to provide correct data)
- Network-level attacks (DDoS, BGP hijacking, DNS poisoning)
- EVM runtime bugs unrelated to Panoptic code
- Social engineering, phishing, or key theft
- Gas optimization, code style, missing comments
- Precision loss <0.01% in fee calculations
- Test file issues (tests are out of scope)
- Market risk (price movements) unless caused by protocol bugs
- MEV or front-running attacks unless enabled by protocol vulnerabilities

".

(** Severity taxonomy; [questions.py], lines 326-349. *)
Definition qf_severity : string :=
"**VALID IMPACT CATEGORIES (Immunefi Panoptic Bug Bounty):**

**Critical Severity**:
- Direct loss of funds (theft of user collateral or protocol assets)
- Permanent freezing of funds (fix requires hardfork)
- Protocol insolvency leading to systemic loss

**High Severity**:
- Temporary freezing of funds with economic loss
- Systemic undercollateralization risks
- Widespread position liquidations due to bugs

**Medium Severity**:
- Economic manipulation benefiting attackers
- State inconsistencies requiring manual intervention
- Premium or interest calculation errors
- Gas griefing or DoS vulnerabilities

**Low/QA (out of scope)**:
- Minor precision loss (<0.01%)
- Gas inefficiencies
- Event emission or logging issues
- Non-critical edge cases with no financial impact
- UI/UX issues

".

(** Output contract: full report or the no-finding sentinel; [questions.py], lines 351-377. *)
Definition qf_output_requirements : string :=
"**OUTPUT REQUIREMENTS:**

If you discover a valid vulnerability related to the security question, 
produce a **full report** following the format below. Your report must include: 
- Exact file paths and function names
- Code quotations (actual snippets from the 11 in-scope contracts)
- Step-by-step exploitation path with realistic parameters
- Clear explanation of which invariant is broken
- Impact quantification (fund loss amount, collateral affected)
- Likelihood assessment (attacker profile, preconditions, complexity)
- Concrete recommendation with code fix
- Proof of Concept (Solidity test demonstrating the exploit)

If **no** valid vulnerability emerges after thorough investigation, state exactly: 
`#NoVulnerability found for this question.`

**Do not fabricate or exaggerate issues.** Only concrete, exploitable bugs with 
clear attack paths and realistic impact count.

**Do not** report: 
- Known issues from previous audits or documentation
- Out-of-scope problems (test files, EVM bugs, crypto primitive breaks)
- Theoretical vulnerabilities without clear attack path and PoC
- Issues requiring trusted roles to behave maliciously
- Minor optimizations, style issues, or low-severity findings

**Focus on one high-quality finding** rather than multiple weak claims.

".

(** Pre-report checklist; [questions.py], lines 379-389. *)
Definition qf_validation_checklist : string :=
"**VALIDATION CHECKLIST (Before Reporting):**
- [ ] Vulnerability lies within one of the 11 in-scope contracts (not test/)
- [ ] Exploitable by unprivileged attacker (no oracle/Uniswap collusion required)
- [ ] Attack path is realistic with correct data types and feasible parameters
- [ ] Impact meets Critical, High, or Medium severity per Immunefi scope
- [ ] PoC can be implemented as Solidity test or transaction sequence
- [ ] Issue breaks at least one documented invariant
- [ ] Not a known exclusion
- [ ] Clear financial harm, collateral loss, or state divergence demonstrated

---

".

(** Report layout; [questions.py], lines 391-419. *)
Definition qf_report_format : string :=
"**AUDIT REPORT FORMAT** (if vulnerability found):

Audit Report

## Title 
The Title Of the Report 

## Summary
A short summary of the issue, keep it brief.

## Finding Description
A more detailed explanation of the issue. Poorly written or incorrect findings may result in rejection and a decrease of reputation score.

Describe which security guarantees it breaks and how it breaks them. If this bug does not automatically happen, showcase how a malicious input would propagate through the system to the part of the code where the issue occurs.

## Impact Explanation
Elaborate on why you've chosen a particular impact assessment.

## Likelihood Explanation
Explain how likely this is to occur and why.


## Recommendation
How can the issue be fixed or solved. Preferably, you can also add a snippet of the fixed code here.


## Proof of Concept
A proof of concept is normally required for Critical, High and Medium Submissions for reviewers under 80 reputation points. Please check the competition page for more details, otherwise your submission may be rejected by the judges.
Very important the test function using their test must bbe provided in here and pls it must be able to compile and run successfully

".

(** Closing instructions, restating the two legal outputs; [questions.py], lines 421-429. *)
Definition qf_closing : string :=
"**Remember**: False positives harm credibility more than missed findings.  Assume claims are invalid until overwhelming evidence proves otherwise.

**Now perform STRICT validation of the claim above.**

**Output ONLY:**
- A full audit report (if genuinely valid after passing **all** checks above) following the specified format
                                                                                                      - `#NoVulnerability found for this question.` (if **any** check fails)

                                                                                                      **Be ruthlessly skeptical.  The bar for validity is EXTREMELY valid.**
".

(** [question_format], [questions.py] lines 34-431: the f-string, its literal text in
    the pieces above and [question] in each slot. *)
Definition question_format (question : string) : string :=
  qf_persona
  ++ question
  ++ qf_architecture
  ++ qf_key_components
  ++ qf_files_in_scope
  ++ qf_invariants_heading
  ++ qf_invariant_catalog
  ++ qf_mission
  ++ qf_attack_surface
  ++ qf_attack_vectors
  ++ qf_trust_model
  ++ qf_known_issues
  ++ qf_severity
  ++ qf_output_requirements
  ++ qf_validation_checklist
  ++ qf_report_format
  ++ qf_closing.

(** The literal text of [question_format]: the groups of segments between two
    occurrences of [{question}], in order. *)
Definition question_format_literals : list (list string) :=
  [ [qf_persona];
    [qf_architecture; qf_key_components; qf_files_in_scope; qf_invariants_heading; qf_invariant_catalog; qf_mission; qf_attack_surface; qf_attack_vectors; qf_trust_model; qf_known_issues; qf_severity; qf_output_requirements; qf_validation_checklist; qf_report_format; qf_closing] ].

(** ** Template of [validation_format] *)

(** Judge persona, up to the slot that receives the report; [questions.py], lines 445-449. *)
Definition vf_persona : string :=
"
You are an **Elite DeFi Security Judge** with deep expertise in options trading protocols, collateralized lending systems, oracle manipulation resistance, Uniswap V3/V4 integrations, and Immunefi bug bounty validation. Your ONLY task is **ruthless technical validation** of security claims against the Panoptic codebase.

Note: Uniswap pools and oracle providers are trusted roles.

**SECURITY CLAIM TO VALIDATE:**
".

(** Framework heading and the scope part of the disqualification checks; [questions.py], lines 452-462. *)
Definition vf_phase1_scope : string :=
"

================================================================================
## **PANOPTIC PROTOCOL VALIDATION FRAMEWORK**

### **PHASE 1: IMMEDIATE DISQUALIFICATION CHECKS**
Reject immediately (`#NoVulnerability`) if **ANY** apply:

#### **A. Scope Violations**
- ❌ Affects files **not** in the 11 in-scope contracts from `contracts/` directory
- ❌ Targets any file under `./test/` directory (tests are out of scope)
- ❌ Claims about documentation, comments, code style, or logging (not security issues)
- ❌ Focuses on out-of-scope components: UI, wallets, SDKs, deployment scripts, or external dependencies

".

(** In-scope file list; [questions.py], lines 464-468. *)
Definition vf_in_scope_files : string :=
"**In-Scope Files (11 total):**
- **Core Protocol**: `PanopticPool.sol` (1183 nSLOC), `RiskEngine.sol` (1294 nSLOC), `CollateralTracker.sol` (863 nSLOC)
- **Position Management**: `SemiFungiblePositionManager.sol` (673 nSLOC), `SemiFungiblePositionManagerV4.sol` (631 nSLOC)
- **Types**: `OraclePack.sol` (291 nSLOC), `MarketState.sol` (65 nSLOC), `PoolData.sol` (42 nSLOC), `RiskParameters.sol` (72 nSLOC), `TokenId.sol` (232 nSLOC)
- **Libraries**: `PanopticMath.sol` (369 nSLOC), `Math.sol` (641 nSLOC)

".

(** Remaining disqualification checks; [questions.py], lines 470-511. *)
Definition vf_phase1_rest : string :=
"**Verify**: Check that every file path cited in the report matches exactly one of the 11 in-scope contracts.

#### **B. Threat Model Violations**
- ❌ Requires Uniswap pool manipulation or compromise (Uniswap pools are trusted)
- ❌ Assumes compromised oracle data feed providers (oracles are trusted to provide correct data)
- ❌ Needs guardian address to act maliciously (guardian is trusted role)
- ❌ Requires attacker to compromise EVM runtime or block consensus
- ❌ Assumes cryptographic primitives (ECDSA, SHA256) are broken
- ❌ Depends on network-level attacks: DDoS, BGP hijacking, DNS poisoning
- ❌ Relies on social engineering, phishing, key theft, or user operational security failures

**Trusted Roles**: Uniswap pools provide liquidity and price feeds; oracles provide signed data; guardian can lock/unlock pools in emergencies. Do **not** assume these actors behave maliciously.

**Untrusted Actors**: Any user minting/burning positions, liquidators, force exercisers, attackers attempting price manipulation.

#### **C. Known Issues / Accepted Risks** [1](#4-0) 
- ❌ Price/oracle manipulation that is not atomic or requires holding price across multiple blocks
- ❌ Attacks stemming from EMA oracles being stale compared to market price (2-30 minutes)
- ❌ Premium manipulation by swapping back and forth in Uniswap (if not profitable between own accounts)
- ❌ Liquidators extracting additional profit through less favorable force exercise prices
- ❌ Share supply approaching 2^256-1 causing reverts/overflows from repeated liquidations
- ❌ Rounding direction inflating gross premium and decreasing seller rates (low-decimal pools)
- ❌ Options buyers avoiding small premium payments via settleLongPremium
- ❌ Premium accumulation permanently capped due to low liquidity earning high fees

#### **D. Non-Security Issues**
- ❌ Gas optimizations, performance improvements, or micro-optimizations
- ❌ Code style, naming conventions, or refactoring suggestions
- ❌ Missing events, logs, error messages, or better user experience
- ❌ NatSpec comments, documentation improvements, or README updates
- ❌ " ++ dq ++ "Best practices" ++ dq ++ " recommendations with no concrete exploit scenario
- ❌ Input validation preventing honest user mistakes unless it allows theft
- ❌ Minor precision errors with negligible financial impact (<0.01%)

#### **E. Invalid Exploit Scenarios**
- ❌ Requires impossible inputs: negative liquidity, invalid tick ranges, timestamps beyond realistic bounds
- ❌ Cannot be triggered through any realistic dispatch() call or position operation
- ❌ Depends on calling internal functions not exposed through any public API
- ❌ Relies on race conditions that are prevented by reentrancy guards or atomic operations
- ❌ Needs multiple coordinated transactions with no economic incentive
- ❌ Requires attacker to already possess the collateral they seek to steal
- ❌ Depends on miner/validator controlling block timestamp beyond reasonable bounds

".

(** Deep validation: execution-path reconstruction; [questions.py], lines 513-542. *)
Definition vf_phase2_trace : string :=
"### **PHASE 2: PANOPTIC-SPECIFIC DEEP CODE VALIDATION**

#### **Step 1: TRACE COMPLETE EXECUTION PATH THROUGH OPTIONS ARCHITECTURE**

**Panoptic Flow Patterns:**

1. **Position Minting Flow**:
   User deposits collateral → `CollateralTracker.deposit()` → `PanopticPool.dispatch(MINT_ACTION)` → `RiskEngine.isAccountSolvent()` → `SemiFungiblePositionManager.mintTokenizedPosition()` → Uniswap pool liquidity added → `CollateralTracker.delegate()` → commission collected

2. **Position Burning Flow**:
   User calls `PanopticPool.dispatch(BURN_ACTION)` → `RiskEngine.isAccountSolvent()` → `SemiFungiblePositionManager.burnTokenizedPosition()` → Uniswap liquidity removed → `CollateralTracker._settlePremium()` → `CollateralTracker.revoke()` → collateral refunded

3. **Liquidation Flow**:
   Liquidator calls `PanopticPool.liquidateAccount()` → `RiskEngine.isAccountSolvent()` returns false → `RiskEngine.getLiquidationBonus()` → close all positions → liquidator receives bonus → protocol loss handled via share minting

4. **Force Exercise Flow**:
   Force exerciser calls `PanopticPool.forceExercise()` → `RiskEngine.exerciseCost()` calculated → payment to exercised user → liquidity added back to Uniswap → positions updated

For each claim, reconstruct the entire execution path:

1. **Identify Entry Point**: Which user-facing function is called? (`dispatch()`, `dispatchFrom()`, `liquidateAccount()`, `forceExercise()`, etc.)
2. **Follow Internal Calls**: Trace through all function calls, including:
   - Solvency checks in `RiskEngine.isAccountSolvent()`
   - Collateral calculations in `CollateralTracker`
   - Position operations in `SemiFungiblePositionManager`
   - Oracle reads from `OraclePack`
3. **State Before Exploit**: Document initial state (collateral balances, positions, oracle ticks, utilization)
4. **State Transitions**: Enumerate all changes (collateral movements, position updates, share minting/burning)
5. **Check Protections**: Verify if reentrancy guards, solvency checks, or mathematical constraints prevent the exploit
6. **Final State**: Show how the exploit results in unauthorized state (collateral loss, insolvency, share manipulation)

".

(** Deep validation: evidence and red-flag rules; [questions.py], lines 544-626. *)
Definition vf_phase2_evidence : string :=
"#### **Step 2: VALIDATE EVERY CLAIM WITH CODE EVIDENCE**

For **each assertion** in the report, demand:

**✅ Required Evidence:**
- Exact file path and line numbers (e.g., `RiskEngine.sol:450-475`) within the 11 in-scope contracts
- Direct Solidity code quotes showing the vulnerable logic
- Call traces with actual parameter values demonstrating how execution reaches the vulnerable line
- Calculations showing how collateral, shares, or positions change incorrectly
- References to specific invariant violations

**🚩 RED FLAGS (indicate INVALID):**

1. **" ++ dq ++ "Missing Validation" ++ dq ++ " Claims**:
   - ❌ Invalid unless report shows input bypasses *all* validation layers:
     - `PanopticPool.dispatch()` checks
     - `RiskEngine.isAccountSolvent()` checks
     - `CollateralTracker` balance checks
     - Uniswap pool constraints
   - ✅ Valid if a specific input type genuinely has no validation path

2. **" ++ dq ++ "Collateral Undercalculation" ++ dq ++ " Claims**:
   - ❌ Invalid unless report demonstrates:
     - `RiskEngine` calculations produce insufficient collateral requirements
     - Attacker can open undercollateralized positions that pass solvency checks
     - Specific mathematical error in collateral calculation
   - ✅ Valid if collateral requirements can be bypassed through calculation errors

3. **" ++ dq ++ "Share Price Manipulation" ++ dq ++ " Claims**:
   - ❌ Invalid unless report demonstrates:
     - `CollateralTracker.totalAssets()` or `totalSupply()` can be manipulated
     - Share price (`totalAssets() / totalSupply()`) decreases unexpectedly
     - Attacker can drain assets through share price manipulation
   - ✅ Valid if share accounting allows asset drainage

4. **" ++ dq ++ "Oracle Manipulation" ++ dq ++ " Claims**:
   - ❌ Invalid unless report demonstrates:
     - Protocol accepts manipulated oracle prices without safe mode activation
     - Attacker can profit from liquidations using manipulated prices
     - Bypass of oracle delta limits or TWAP constraints
   - ✅ Valid if oracle safeguards can be bypassed for profit

5. **" ++ dq ++ "Liquidation Bonus Extraction" ++ dq ++ " Claims**:
   - ❌ Invalid unless report demonstrates:
     - `RiskEngine.getLiquidationBonus()` calculates excessive bonuses
     - Bonus exceeds liquidatee's collateral balance
     - Protocol loss occurs due to bonus overpayment
   - ✅ Valid if liquidation bonuses can be extracted beyond intended limits

6. **" ++ dq ++ "Interest Accrual Bugs" ++ dq ++ " Claims**:
   - ❌ Invalid unless report demonstrates:
     - `CollateralTracker._accrueInterest()` miscalculates interest
     - `borrowIndex` fails to be monotonically increasing
     - Attacker can mint unlimited assets through interest manipulation
   - ✅ Valid if interest calculations enable unlimited asset minting

7. **" ++ dq ++ "Position Encoding" ++ dq ++ " Claims**:
   - ❌ Invalid unless report demonstrates:
     - `TokenId` encoding allows invalid tick ranges or liquidity
     - Position size limits can be bypassed through encoding tricks
     - Invalid encoding bricks positions permanently
   - ✅ Valid if TokenId manipulation enables position bypasses

8. **" ++ dq ++ "Premium Settlement" ++ dq ++ " Claims**:
   - ❌ Invalid unless report demonstrates:
     - `_settlePremium()` incorrectly distributes premium
     - Premium accumulation can be manipulated for profit
     - Settled premium calculation errors cause fund loss
   - ✅ Valid if premium settlement allows value extraction

9. **" ++ dq ++ "Cross-Collateralization" ++ dq ++ " Claims**:
   - ❌ Invalid unless report demonstrates:
     - Cross-buffer ratio calculation is incorrect
     - Systemic undercollateralization can occur
     - Cross-collateral limits can be bypassed
   - ✅ Valid if cross-collateral calculations cause systemic risk

10. **" ++ dq ++ "Mathematical Overflow" ++ dq ++ " Claims**:
    - ❌ Invalid unless report demonstrates:
      - Specific arithmetic operation overflows/underflows
      - Overflow causes incorrect collateral or position calculations
      - Attacker can exploit overflow for fund theft
    - ✅ Valid if mathematical errors enable fund loss

".

(** Deep validation: cross-reference with the test suite; [questions.py], lines 628-649. *)
Definition vf_phase2_tests : string :=
"#### **Step 3: CROSS-REFERENCE WITH TEST SUITE**

Panoptic's test suite includes comprehensive tests in `test/foundry/` directory (out of scope but informative). Ask:

1. **Existing Coverage**: Do current tests handle the scenario? Check tests like:
   - `test/foundry/core/PanopticPool.t.sol` - dispatch operations
   - `test/foundry/core/RiskEngine/` - solvency calculations
   - `test/foundry/core/CollateralTracker.t.sol` - share accounting
   - `test/foundry/libraries/PanopticMath.t.sol` - mathematical operations

2. **Test Gaps**: Is there an obvious gap that would allow the exploit? If scenario is untested, suggest adding test but do **not** assume vulnerability.

3. **Invariant Tests**: Would existing invariant checks catch the bug? Tests verify:
   - Solvency maintenance across all operations
   - Share price monotonicity
   - Interest index monotonicity
   - Collateral conservation
   - Position size limits

4. **PoC Feasibility**: Can the report's PoC be implemented as a Foundry test using existing contracts without modifying core code?

**Test Case Realism Check**: PoCs must use realistic position structures, valid TokenId encoding, proper collateral amounts, and respect protocol constraints.

".

(** Impact calibration; [questions.py], lines 651-708. *)
Definition vf_phase3_impact : string :=
"### **PHASE 3: IMPACT & EXPLOITABILITY VALIDATION**

#### **Impact Must Be CONCRETE and ALIGN WITH IMMUNEFI SCOPE**

**✅ Valid CRITICAL Severity Impacts (per Immunefi Panoptic scope):**

1. **Direct Loss of Funds (Critical)**:
   - Theft of user collateral from CollateralTracker vaults
   - Theft of protocol assets through share manipulation
   - Unauthorized spending of user deposits
   - Collateral drainage through mathematical exploits
   - Example: " ++ dq ++ "Share price manipulation allows attacker to drain 1000 ETH from CollateralTracker" ++ dq ++ "

2. **Protocol Insolvency (Critical)**:
   - Systemic undercollateralization causing protocol-wide losses
   - Collateral requirements calculation errors enabling mass undercollateralization
   - Share supply overflow preventing all operations
   - Example: " ++ dq ++ "Cross-collateralization bug allows all positions to become undercollateralized simultaneously" ++ dq ++ "

3. **Permanent Freezing of Funds (Critical)**:
   - Funds locked with no transaction able to unlock them
   - Position encoding bricking addresses permanently
   - Share supply overflow preventing withdrawals
   - Invalid position structure locking collateral permanently
   - Example: " ++ dq ++ "TokenId encoding bug locks 500 USDC collateral permanently" ++ dq ++ "

**✅ Valid HIGH Severity Impacts:**

4. **Temporary Freezing with Economic Loss (High)**:
   - Funds temporarily frozen causing economic damage
   - Widespread position liquidations due to bugs
   - Systemic undercollateralization risks
   - Example: " ++ dq ++ "Liquidation bug causes 100 positions to be liquidated unnecessarily" ++ dq ++ "

**✅ Valid MEDIUM Severity Impacts:**

5. **Economic Manipulation (Medium)**:
   - Premium accumulation manipulation benefiting attackers
   - Interest rate manipulation through utilization attacks
   - Liquidation bonus extraction beyond intended amounts
   - State inconsistencies requiring manual intervention
   - Example: " ++ dq ++ "Premium settlement bug allows attacker to extract 10 ETH in excess premiums" ++ dq ++ "

6. **State Inconsistencies (Medium)**:
   - Premium or interest calculation errors
   - Gas griefing or DoS vulnerabilities
   - Oracle state divergence between components
   - Example: " ++ dq ++ "Interest accrual bug causes 5% error in interest calculations" ++ dq ++ "

**❌ Invalid " ++ dq ++ "Impacts" ++ dq ++ ":**

- User withdraws their own funds (normal protocol operation)
- Attacker loses their own funds through self-draining (not an exploit)
- Theoretical cryptographic weaknesses without practical exploit
- General market risk (price movements) unless caused by protocol bugs
- " ++ dq ++ "Could be problematic if..." ++ dq ++ " statements without concrete exploit path
- Minor fee overpayment or underpayment (<0.1% of transaction value)
- Precision loss <0.01% across reasonable transaction volumes

".

(** Likelihood calibration; [questions.py], lines 710-744. *)
Definition vf_phase3_likelihood : string :=
"#### **Likelihood Reality Check**

Assess exploit feasibility:

1. **Attacker Profile**:
   - Any user with ETH/USDC to deposit as collateral? ✅ Likely
   - Liquidator monitoring for undercollateralized positions? ✅ Possible
   - Force exerciser looking for profitable opportunities? ✅ Possible
   - Attacker with ability to manipulate Uniswap pools? ❌ Unlikely (trusted role)
   - Compromised oracle provider? ❌ Impossible (trusted role)

2. **Preconditions**:
   - Normal market operation? ✅ High likelihood
   - High pool utilization? ✅ Possible during volatile periods
   - Specific position structure (e.g., maximum legs)? ✅ Attacker-controlled
   - Specific oracle state (e.g., stale prices)? ✅ Attacker can time submission
   - Network congestion or high gas prices? ✅ Possible but not required

3. **Execution Complexity**:
   - Single dispatch call? ✅ Simple
   - Multiple coordinated transactions? ✅ Moderate (attacker controls)
   - Complex position with multiple legs? ✅ Attacker can deploy
   - Requires precise timing or front-running? ⚠️ Higher complexity
   - Requires mathematical precision? ✅ Attacker can calculate

4. **Economic Cost**:
   - Collateral deposit required? ✅ Attacker-determined (can be minimal)
   - Gas costs for transactions? ✅ Moderate
   - Potential profit vs. cost? ✅ Must be positive for valid exploit
   - Liquidation capital required? ✅ Varies by opportunity

5. **Combined Probability**:
   - Multiply probabilities of all conditions
   - If resulting likelihood <0.1% with no economic incentive → Invalid
   - If exploit is profitable and feasible → Valid

".

(** Unfinished phase 4 heading and the quoted known-issue citations; [questions.py], lines 746-793. *)
Definition vf_phase4_citations : string :=
"### **PHASE 4:

Wiki pages you might want to explore:
- [Panoptic Protocol Overview (code-423n4/2025-12-panoptic)](/wiki/code-423n4/2025-12-panoptic#1)

### Citations

**File:** README.md (L53-90)
```markdown
## Publicly known issues

_Anything included in this section and its subsection is considered a publicly known issue and is therefore ineligible for awards._

**System & Token Limitations**

- Transfers of ERC1155 SFPM tokens has been disabled.
- Construction helper functions (prefixed with add) in the TokenId library and other types do not perform extensive input validation. Passing invalid or nonsensical inputs into these functions or attempting to overwrite already filled slots may yield unexpected or invalid results. This is by design, so it is expected that users of these functions will validate the inputs beforehand.
- Tokens with a supply exceeding 2^127 - 1 are not supported.
- If one token on a pool is broken/does not meet listed criteria/is malicious there are no guarantees as to the security of the other token in that pool, as long as other pools with two legitimate and compliant tokens are not affected.

**Oracle & Price Manipulation**

- Price/oracle manipulation that is not atomic or requires attackers to hold a price across more than one block is not in scope -i.e., to manipulate the internal exponential moving averages (EMAs), you need to set the manipulated price and then keep it there for at least 1 minute until it can be updated again.
- Attacks that stem from the EMA oracles being extremely stale compared to the market price within its period (currently between 2-30 minutes)
- As a general rule, only price manipulation issues that can be triggered by manipulating the price atomically from a normal pool/oracle state are valid

**Protocol Parameters**

- The constants VEGOID, EMA_PERIODS, MAX_TICKS_DELTA, MAX_TWAP_DELTA_LIQUIDATION, MAX_SPREAD, BP_DECREASE_BUFFER, MAX_CLAMP_DELTA, NOTIONAL_FEE, PREMIUM_FEE, PROTOCOL_SPLIT, BUILDER_SPLIT, SELLER_COLLATERAL_RATIO, BUYER_COLLATERAL_RATIO, MAINT_MARGIN_RATE, FORCE_EXERCISE_COST, TARGET_POOL_UTIL, SATURATED_POOL_UTIL, MAX_OPEN_LEGS, and the IRM parameters (CURVE_STEEPNESS, TARGET_UTILIZATION, etc.) are all parameters and subject to change, but within reasonable levels.

**Premium & Liquidation Issues**

- Given a small enough pool and low seller diversity, premium manipulation by swapping back and forth in Uniswap is a known risk. As long as it's not possible to do it between two of your own accounts profitably and doesn't cause protocol loss, that's acceptable
- It's known that liquidators sometimes have a limited capacity to force liquidations to execute at a less favorable price and extract some additional profit from that. This is acceptable even if it causes some amount of unnecessary protocol loss.
- It's possible to leverage the rounding direction to artificially inflate the total gross premium and significantly decrease the rate of premium option sellers earn/are able to withdraw (but not the premium buyers pay) in the future (only significant for very-low-decimal pools, since this must be done one token at a time).
- It's also possible for options buyers to avoid paying premium by calling settleLongPremium if the amount of premium owed is sufficiently small.
- Premium accumulation can become permanently capped if the accumulator exceeds the maximum value; this can happen if a low amount of liquidity earns a large amount of (token) fees

**Gas & Execution Limitations**

- The liquidator may not be able to execute a liquidation if MAX_POSITIONS is too high for the deployed chain due to an insufficient gas limit. This parameter is not final and will be adjusted by deployed chain such that the most expensive liquidation is well within a safe margin of the gas limit.
- It's expected that liquidators may have to sell options, perform force exercises, and deposit collateral to perform some liquidations. In some situations, the liquidation may not be profitable.
- In some situations (stale oracle tick), force exercised users will be worse off than if they had burnt their position.

**Share Supply Issues**

- It is feasible for the share supply of the CollateralTracker to approach 2**256 - 1 (given the token supply constraints, this can happen through repeated protocol-loss-causing liquidations), which can cause various reverts and overflows. Generally, issues with an extremely high share supply as a precondition (delegation reverts due to user's balance being too high, other DoS caused by overflows in calculations with share supply or balances, etc.) are not valid unless that share supply can be created through means other than repeated liquidations/high protocol loss.
```

".

(** Output contract for a valid finding: title, summary, impact; [questions.py], lines 795-819. *)
Definition vf_output_valid : string :=
"## Panoptic Protocol Validation Output Requirements

### **OUTPUT REQUIREMENTS**

**If VALID (extremely rare—be ruthlessly sure):**

Produce a full audit report with these sections and please make it short:

#### **Title**
Precise vulnerability name (e.g., " ++ dq ++ "Share Price Manipulation in CollateralTracker Allows Asset Drainage" ++ dq ++ ")

#### **Summary**
Two to three sentences summarizing:
- What goes wrong
- Where in the codebase (file and function)
- Why it's critical (impact category)

#### **Impact**
**Severity**: [Critical / High / Medium]
**Category**: [Direct Fund Loss / Permanent Fund Freeze / Protocol Insolvency / Economic Manipulation / State Inconsistency]

Describe:
- Concrete financial impact or protocol disruption
- Affected parties (all users, liquidators, PLPs, specific addresses)
- Quantify potential loss (amount of ETH/USDC, collateral affected)

".

(** Output contract: finding description; [questions.py], lines 821-857. *)
Definition vf_output_finding : string :=
"#### **Finding Description**

**Location**: `contracts/[filename].sol:[line_start]-[line_end]`, function `[functionName]()`

**Intended Logic**: Expected behavior per protocol spec and invariants

**Actual Logic**: Describe the flawed logic with exact code quotes

**Code Evidence**:
```solidity
// Quote relevant code from the vulnerable file
// Include 5-10 lines of context
// Show the specific line(s) with the bug
```

**Exploitation Path**:
1. **Preconditions**: Initial state (e.g., " ++ dq ++ "Attacker deposits 1 ETH collateral" ++ dq ++ ")
2. **Step 1**: Specific action (e.g., " ++ dq ++ "Attacker mints position with manipulated TokenId" ++ dq ++ ")
    - Position structure (legs, strikes, width, token amounts)
    - Code path: `PanopticPool.dispatch()` → `RiskEngine.isAccountSolvent()` → `CollateralTracker.delegate()`
3. **Step 2**: State change (e.g., " ++ dq ++ "Share price decreases due to accounting error" ++ dq ++ ")
    - Storage state: `totalAssets()`, `totalSupply()`, `s_depositedAssets`
    - Oracle observations: Price ticks, EMA values
4. **Step 3**: Follow-up action (e.g., " ++ dq ++ "Attacker withdraws assets at inflated share price" ++ dq ++ ")
    - Timing: Executed after share price manipulation
5. **Step 4**: Unauthorized outcome (e.g., " ++ dq ++ "Attacker drains 100 ETH from CollateralTracker" ++ dq ++ ")
    - Invariant broken: Share price monotonicity violated, collateral conservation failed

**Security Property Broken**: [Which of the 26 Panoptic invariants is violated]
- Example: " ++ dq ++ "Invariant #3: Share Price Monotonicity - Share price must be non-decreasing except for protocol-favorable rounding" ++ dq ++ "

**Root Cause Analysis**:
Deep dive into why the bug exists:
- Missing share price validation in `CollateralTracker.settleLiquidation()`
- Incorrect asset accounting in `totalAssets()` calculation
- Race condition between `delegate()` and `revoke()` operations
- No overflow protection in share supply calculations

".

(** Output contract: impact explanation; [questions.py], lines 859-875. *)
Definition vf_output_impact : string :=
"#### **Impact Explanation**

**Affected Assets**: [ETH, USDC, custom tokens, user collateral, protocol assets]

**Damage Severity**:
- **Quantitative**: " ++ dq ++ "Attacker can drain arbitrary amounts limited only by available liquidity. Protocol-wide impact: all CollateralTracker vaults vulnerable." ++ dq ++ "
- **Qualitative**: " ++ dq ++ "Complete loss of collateral integrity. Users cannot trust deposited funds." ++ dq ++ "

**User Impact**:
- **Who**: All PLPs, options buyers/sellers, liquidators
- **Conditions**: Exploitable during normal operation, worse during high volatility
- **Recovery**: Requires emergency pause and manual intervention

**Systemic Risk**:
- Enables further attacks: Can be automated with bots
- Cascading effects: Share price manipulation affects all positions
- Detection difficulty: Requires forensic analysis of share accounting

".

(** Output contract: likelihood explanation; [questions.py], lines 877-898. *)
Definition vf_output_likelihood : string :=
"#### **Likelihood Explanation**

**Attacker Profile**:
- **Identity**: Any user with ETH/USDC to deposit
- **Resources Required**: Minimal capital, ability to mint/burn positions
- **Technical Skill**: Medium (requires understanding of TokenId encoding and share accounting)

**Preconditions**:
- **Market State**: Normal operation or high volatility
- **Attacker State**: Needs collateral deposit and position minting capability
- **Timing**: Requires specific oracle state or price manipulation

**Execution Complexity**:
- **Transaction Count**: Multiple dispatch calls for position manipulation
- **Coordination**: Requires precise timing of mint/burn operations
- **Detection Risk**: Low initially (appears as normal trading), high after analysis

**Frequency**:
- **Repeatability**: Unlimited (attacker can repeat with different positions)
- **Scale**: Protocol-wide (affects all users in affected vaults)

**Overall Assessment**: High likelihood (accounting errors exist, low barrier to exploit, profitable)

".

(** Output contract: recommendation; [questions.py], lines 900-935. *)
Definition vf_output_recommendation : string :=
"#### **Recommendation**

**Immediate Mitigation**:
Add share price validation to prevent manipulation:
```solidity
// In CollateralTracker.sol
function _validateSharePrice() internal view {
    require(totalAssets() * 1e18 >= totalSupply() * lastSharePrice, " ++ dq ++ "Share price decreased" ++ dq ++ ");
    }
```

**Permanent Fix**:
Implement proper asset accounting with overflow checks:

```solidity
// File: contracts/CollateralTracker.sol
// Function: totalAssets()

function totalAssets() public view override returns (uint256) {
    // Fixed logic with proper validation
    uint256 assets = s_depositedAssets + s_assetsInAMM + unrealizedGlobalInterest;
    require(assets >= s_depositedAssets, " ++ dq ++ "Asset accounting error" ++ dq ++ ");
    return assets;
}
```

  **Additional Measures**:
- Add test case: `test/share_price_manipulation.t.sol` verifying share price protection
- Add monitoring: Alert when share price decreases unexpectedly
- Protocol upgrade: Implement enhanced share accounting with invariant checks

**Validation**:
- [ ] Fix prevents share price manipulation
- [ ] No new vulnerabilities introduced (gas costs, complexity)
- [ ] Backward compatible (existing positions remain valid)
- [ ] Performance impact acceptable (minimal gas overhead)

".

(** Output contract: proof of concept; [questions.py], lines 937-969. *)
Definition vf_output_poc : string :=
"#### **Proof of Concept**
Note the proof of concept has to be a complete test using their test setup that must run so pls u must always a very good test function and dont go out of concept that must proove the issue if its valid,

```solidity
   // File: test/foundry/exploits/SharePriceDrain.t.sol
contract SharePriceDrainTest is Test {
function testSharePriceManipulation() public {
        // Setup: Deploy Panoptic contracts
        // Step 1: Attacker deposits collateral
        // Step 2: Manipulate share price through position operations
        // Step 3: Withdraw excess assets
                                                                                                                                                                                  // Step 4: Verify protocol loss
}
}
```

  **Expected Output** (when vulnerability exists):
```
[PASS] testSharePriceManipulation() (gas: 245000)
Attacker drained 100 ETH from protocol
```

  **Expected Output** (after fix applied):
```
[FAIL] testSharePriceManipulation() (gas: 245000)
Share price manipulation prevented
```

  **PoC Validation**:
- [ ] PoC runs against unmodified Panoptic codebase
- [ ] Demonstrates clear violation of share price invariant
- [ ] Shows measurable financial impact
- [ ] Fails gracefully after fix applied

".

(** Output contract for an invalid claim: the no-finding sentinel; [questions.py], lines 971-977. *)
Definition vf_output_invalid : string :=
"**If INVALID (default when any condition fails):**

Output exactly:

```
#NoVulnerability found for this question.
```

".

(** Final checklist; [questions.py], lines 979-992. *)
Definition vf_checklist : string :=
"### **CRITICAL VALIDATION CHECKLIST**

Before accepting any vulnerability, verify:

1. **Scope Compliance**: Vulnerability affects only the 11 in-scope contracts [1](#5-0)
2. **Not Known Issue**: Check against README known issues [2](#5-1)
    3. **Trust Model**: Exploit doesn't require Uniswap or oracle compromise
4. **Impact Severity**: Meets Critical/High/Medium per Immunefi Panoptic scope
5. **Economic Incentive**: Attack must be profitable for attacker
6. **Technical Feasibility**: Exploit can be implemented without protocol modifications
7. **Invariant Violation**: Clearly breaks one of the 26 documented invariants
8. **PoC Completeness**: Test runs successfully against unmodified codebase

**Remember**: False positives harm credibility. Assume claims are invalid until overwhelming evidence proves otherwise.
".

(** [validation_format], [questions.py] lines 434-994: the f-string, its literal text in
    the pieces above and [report] in each slot. *)
Definition validation_format (report : string) : string :=
  vf_persona
  ++ report
  ++ vf_phase1_scope
  ++ vf_in_scope_files
  ++ vf_phase1_rest
  ++ vf_phase2_trace
  ++ vf_phase2_evidence
  ++ vf_phase2_tests
  ++ vf_phase3_impact
  ++ vf_phase3_likelihood
  ++ vf_phase4_citations
  ++ vf_output_valid
  ++ vf_output_finding
  ++ vf_output_impact
  ++ vf_output_likelihood
  ++ vf_output_recommendation
  ++ vf_output_poc
  ++ vf_output_invalid
  ++ vf_checklist.

(** The literal text of [validation_format]: the groups of segments between two
    occurrences of [{report}], in order. *)
Definition validation_format_literals : list (list string) :=
  [ [vf_persona];
    [vf_phase1_scope; vf_in_scope_files; vf_phase1_rest; vf_phase2_trace; vf_phase2_evidence; vf_phase2_tests; vf_phase3_impact; vf_phase3_likelihood; vf_phase4_citations; vf_output_valid; vf_output_finding; vf_output_impact; vf_output_likelihood; vf_output_recommendation; vf_output_poc; vf_output_invalid; vf_checklist] ].

(** ** Template of [question_generator] *)

(** Title, context and the first mention of the target file; [questions.py], lines 1010-1020. *)
Definition qg_context : string :=
"
# **Generate 150+ Targeted Security Audit Questions for Panoptic Protocol**

## **Context**

The target project is **Panoptic**, a permissionless options trading protocol that enables perpetual options trading on top of any Uniswap V3 or V4 pool. Unlike traditional options protocols, Panoptic employs a **fully collateralized model** where options positions are represented as Uniswap liquidity positions, with selling options corresponding to adding liquidity and buying options corresponding to removing liquidity. The protocol features **PanopticPool** (orchestrator contract), **RiskEngine** (risk assessment and solvency calculator), **CollateralTracker** (ERC4626 vault for collateral), **SemiFungiblePositionManager** (position engine), and sophisticated **oracle management** with volatility safeguards.

Panoptic's architecture includes critical components for position minting/burning, collateral management, risk calculations, liquidation handling, premium settlement, and interest accrual. The protocol maintains solvency through dynamic collateral requirements, cross-collateralization between tokens, and adaptive interest rates based on pool utilization, while supporting complex features like multi-leg options strategies, force exercises, and protocol fee distribution.

## **Scope**

**CRITICAL TARGET FILE**: Focus question generation EXCLUSIVELY on `".

(** Between the first and the second mention of the target file; [questions.py], lines 1020-1022. *)
Definition qg_scope_note : string :=
"`

Note: The questions must be generated from **`".

(** Floor instruction: never an empty result, minimum targets; [questions.py], lines 1022-1024. *)
Definition qg_scope_floor : string :=
"`** only. If you cannot generate enough questions from this single file, provide as many quality questions as you can extract from the file's logic and interactions. **DO NOT return empty results** - give whatever questions you can derive from the target file.

If you cannot reach 150 questions from this file alone, generate as many high-quality questions as the file's complexity allows (minimum target: 50-100 questions for large critical files, 20-50 for smaller files).

".

(** Heading of the file listing; [questions.py], lines 1026-1029. *)
Definition qg_full_context : string :=
"**Full Context - 11 In-Scope Files (for reference only):**
If a file is more than a thousand u can generate as many as 300 plus questions as u can u cant but pls always generate as many as u can dont give other response, 
If there are maths logic also generate as many questions base on all the maths logic too among the questions u are giving to me cover all scope and entrypoints
### **Core Protocol Contracts - 11 files**

".

(** The core_files listing; [questions.py], lines 1031-1045. *)
Definition qg_core_files : string :=
"```python
core_files = [
    " ++ dq ++ "contracts/PanopticPool.sol" ++ dq ++ ",              # 1183 nSLOC - Main orchestrator
    " ++ dq ++ "contracts/RiskEngine.sol" ++ dq ++ ",                # 1294 nSLOC - Risk calculator
    " ++ dq ++ "contracts/SemiFungiblePositionManager.sol" ++ dq ++ ", # 673 nSLOC - Position engine
    " ++ dq ++ "contracts/SemiFungiblePositionManagerV4.sol" ++ dq ++ ", # 631 nSLOC - V4 position engine
    " ++ dq ++ "contracts/CollateralTracker.sol" ++ dq ++ ",         # 863 nSLOC - ERC4626 vault
    " ++ dq ++ "contracts/types/OraclePack.sol" ++ dq ++ ",          # 291 nSLOC - Oracle observations
    " ++ dq ++ "contracts/types/MarketState.sol" ++ dq ++ ",         # 65 nSLOC - Interest rate state
    " ++ dq ++ "contracts/types/PoolData.sol" ++ dq ++ ",            # 42 nSLOC - Pool configuration
    " ++ dq ++ "contracts/types/RiskParameters.sol" ++ dq ++ ",      # 72 nSLOC - Risk parameters
    " ++ dq ++ "contracts/libraries/PanopticMath.sol" ++ dq ++ ",    # 369 nSLOC - Options math
    " ++ dq ++ "contracts/libraries/Math.sol" ++ dq ++ ",            # 641 nSLOC - Generic math
]
```

".

(** Declared total, up to the third mention of the target file; [questions.py], line 1047. *)
Definition qg_total : string :=
"**Total: 11 files in full scope (but focus ONLY on `".

(** End of the scope part; [questions.py], lines 1047-1049. *)
Definition qg_total_end : string :=
"` for this generation)**

---

".

(** The five architecture layers; [questions.py], lines 1051-1093. *)
Definition qg_architecture : string :=
"## **Panoptic Protocol Architecture & Layers**

### **1. Position Management Layer** (`PanopticPool.sol`, `SemiFungiblePositionManager.sol`)

- **Position Orchestration**: PanopticPool coordinates all protocol interactions through `dispatch()` and `dispatchFrom()` entry points
- **TokenId Encoding**: Complex multi-leg positions encoded in 256-bit ERC1155 tokenIds with poolId, legs, strike, width, and option parameters
- **Liquidity Operations**: Mint positions add liquidity to Uniswap (short options), burn positions remove liquidity (long options)
- **Position Limits**: Users can mint up to 33 position legs total across all positions (`MAX_OPEN_LEGS`)
- **Commission Handling**: Fees split between protocol, builders, and PLPs according to `PROTOCOL_SPLIT` and `BUILDER_SPLIT`

### **2. Risk & Collateral Layer** (`RiskEngine.sol`, `CollateralTracker.sol`)

- **Solvency Verification**: RiskEngine calculates collateral requirements and verifies account solvency through `isAccountSolvent()`
- **Dynamic Collateral**: Requirements scale with pool utilization using utilization-based multipliers (`VEGOID` parameter)
- **Cross-Collateralization**: Token0 and Token1 balances can be used to collateralize each other with `crossBufferRatio`
- **Interest Accrual**: Compound interest model where borrowers pay rates determined by utilization-based IRM
- **Liquidation Bonuses**: Calculated via `getLiquidationBonus()` to incentivize liquidation of distressed accounts

### **3. Oracle & Price Layer** (`OraclePack.sol`, `PanopticMath.sol`)

- **Multi-Oracle System**: Fast oracle (current tick), slow oracle (EMA), and median tick for price manipulation resistance
- **Volatility Safeguards**: EMA filters and median buffers prevent price manipulation attacks
- **Safe Mode**: Protocol enters conservative mode when oracle deltas exceed thresholds (`MAX_TICKS_DELTA`)
- **TWAP Calculations**: Time-weighted average prices for accurate option pricing and settlement
- **Price Conversions**: Sophisticated math for converting between tokens based on oracle ticks

### **4. Asset & Token Layer** (`CollateralTracker.sol`, `Math.sol`)

- **ERC4626 Integration**: CollateralTrackers implement vault standard for deposits and withdrawals
- **Share Accounting**: `totalAssets()`, `totalSupply()`, `s_depositedAssets`, `s_assetsInAMM` tracking
- **Premium Settlement**: Collection and distribution of option premia between buyers and sellers
- **Balance Operations**: Deposit, withdraw, mint, redeem, delegate, and revoke share operations
- **Rounding Protection**: Share price must be non-decreasing except for protocol-favorable rounding

### **5. Interest Rate Layer** (`MarketState.sol`, `RiskEngine.sol`)

- **Adaptive IRM**: PID controller approach targeting 66.67% utilization (`TARGET_POOL_UTIL`)
- **Rate Boundaries**: Rates bounded between `MIN_RATE_AT_TARGET` and `MAX_RATE_AT_TARGET`
- **Borrow Index Tracking**: Global and per-user borrow indices for compound interest calculations
- **Utilization Calculations**: Real-time pool utilization affects interest rates and collateral requirements
- **Interest State Management**: Tracking of net borrows and last interaction timestamps per user

---

".

(** The invariant catalog in its one-line form; [questions.py], lines 1095-1138. *)
Definition qg_invariants : string :=
"## **Critical Security Invariants**

### **Solvency & Collateral**

1. **Solvency Maintenance**: All accounts must satisfy `balance0 + convert(scaledSurplus1) >= maintReq0` AND `balance1 + convert(scaledSurplus0) >= maintReq1` at oracle tick
2. **Collateral Conservation**: Total assets must equal `s_depositedAssets + s_assetsInAMM + unrealizedGlobalInterest` at all times
3. **Share Price Monotonicity**: Share price (`totalAssets() / totalSupply()`) must be non-decreasing except for protocol-favorable rounding
4. **Interest Index Monotonicity**: Global `borrowIndex` must be monotonically increasing starting from 1e18 (WAD)
5. **Cross-Collateral Limits**: Cross-buffer ratio must scale conservatively with utilization, dropping to zero at 90% utilization
6. **Position Size Limits**: Individual positions limited by available Uniswap liquidity and `MAX_SPREAD = 90%`

### **Oracle & Price Integrity**

7. **Oracle Delta Limits**: Fast/slow oracle delta ≤ 953 ticks (~10%), median/slow delta ≤ 2×MAX_TICKS_DELTA
8. **Safe Mode Activation**: Protocol must enter safe mode when oracle deltas exceed thresholds
9. **TWAP Accuracy**: TWAP calculations must use sufficient time windows to prevent manipulation
10. **Price Consistency**: All operations in a single transaction must use consistent oracle tick(s)
11. **Liquidation Price Bounds**: Current tick must be within 513 ticks of TWAP during liquidation (~5% deviation)

### **Position & State Management**

12. **Position Encoding Validity**: TokenId encoding must produce valid tick ranges and liquidity amounts
13. **Leg Count Limits**: Users cannot exceed `MAX_OPEN_LEGS = 33` total position legs
14. **Premium Accounting**: Premium distribution must be proportional to liquidity share in each chunk
15. **Force Exercise Costs**: Base cost of 1.024% for in-range, 1 bps for out-of-range positions
16. **Liquidation Completeness**: Liquidations must close all positions held by the liquidatee

### **Asset & Share Integrity**

17. **Asset Accounting**: `totalSupply()` must equal `_internalSupply + s_creditedShares` at all times
18. **Deposit Limits**: Deposits must not exceed `type(uint104).max`, withdrawals must leave ≥1 asset
19. **Share Transfer Restrictions**: Users with open positions cannot transfer shares via `transfer()` or `transferFrom()`
20. **Credited Shares Logic**: `s_creditedShares` only increases on position creation, decreases on closure
21. **Interest Accuracy**: Interest owed must equal `netBorrows * (currentBorrowIndex - userBorrowIndex) / userBorrowIndex`

### **Liquidation & Protocol Safety**

22. **Liquidation Bonus Caps**: Bonus cannot exceed liquidatee's pre-liquidation collateral balance
23. **Premium Haircutting**: Premium must be clawed back if protocol loss exists after liquidation
24. **Protocol Loss Limits**: Share supply approaching 2^256-1 can cause various reverts and overflows
25. **Force Exercise Validation**: Only long legs contribute to force exercise costs, must account for token deltas
26. **Solvency Check Timing**: Solvency must be checked at oracle tick, not current tick, to prevent manipulation

---

".

(** In-scope vulnerability categories; [questions.py], lines 1140-1193. *)
Definition qg_vulnerability_categories : string :=
"## **In-Scope Vulnerability Categories** (from Immunefi)

Focus questions on vulnerabilities that lead to these impacts:

### **Critical Severity**

1. **Direct loss of funds**
   - Collateral calculation errors allowing undercollateralized positions
   - Double-spending or duplicate position minting
   - Share price manipulation allowing asset drainage
   - Interest accrual bugs causing unlimited minting
   - Oracle manipulation enabling profitable liquidations

2. **Permanent freezing of funds (fix requires hardfork)**
   - Position encoding bricking addresses permanently
   - Share supply overflow preventing all withdrawals
   - Interest state corruption blocking position closures
   - Invalid tokenIds locking positions permanently

3. **Protocol insolvency**
   - Collateral requirements calculation errors
   - Liquidation bonus calculation allowing protocol loss
   - Cross-collateralization bugs causing systemic undercollateralization
   - Premium settlement errors causing fund drainage

### **High Severity**

4. **Temporary freezing of funds**
   - Liquidation failures preventing position closures
   - Oracle stale prices blocking all operations
   - Interest accrual overflow preventing withdrawals
   - Share transfer restrictions bypassed incorrectly

5. **Incorrect protocol behavior**
   - Risk calculation errors producing wrong solvency results
   - Premium distribution bugs favoring certain users
   - Force exercise cost calculation errors
   - Position size limit bypasses

### **Medium Severity**

6. **Economic manipulation**
   - Premium accumulation manipulation
   - Interest rate manipulation through utilization attacks
   - Liquidation bonus extraction beyond intended amounts
   - Gas griefing through expensive operations

7. **State inconsistencies**
   - Oracle state divergence between components
   - Position balance tracking errors
   - Interest index calculation inaccuracies
   - Share/asset accounting mismatches

---

".

(** Impact taxonomy restated; [questions.py], lines 1195-1227. *)
Definition qg_impact_categories : string :=
"## **Valid Impact Categories (Restated for Panoptic)**

### **Critical**

- Direct theft of user funds or protocol assets
- Permanent fund freezing requiring hard fork
- Protocol insolvency leading to systemic loss
- Unlimited asset minting or share price collapse

### **High**

- Temporary fund freezing with economic loss
- Systemic undercollateralization risks
- Widespread position liquidations due to bugs
- Oracle manipulation enabling profitable attacks

### **Medium**

- Economic manipulation benefiting attackers
- State inconsistencies requiring manual intervention
- Premium or interest calculation errors
- Gas griefing or DoS vulnerabilities

### **Out of Scope**

- Gas optimization inefficiencies
- UI/UX issues in frontends
- Market risk (price movements)
- Third-party oracle failures (unless oracle protocol broken)
- MEV or front-running attacks
- Theoretical attacks without economic impact

---

".

(** Goals, up to the mention in the second goal; [questions.py], lines 1229-1232. *)
Definition qg_goals_1 : string :=
"## **Goals for Question Generation**

1. **Real Exploit Scenarios**: Each question describes a plausible attack an attacker, liquidator, or malicious user could perform
2. **Concrete & Actionable**: Reference specific functions, variables, or logic flows in `".

(** Goals three to five; [questions.py], lines 1232-1235. *)
Definition qg_goals_2 : string :=
"`
3. **High Impact**: Prioritize questions leading to Critical/High/Medium impacts per Immunefi scope
4. **Deep Financial Logic**: Focus on subtle state transitions, cross-contract interactions, rounding errors, oracle manipulation, collateral calculation bugs
5. **Breadth Within Target File**: Cover all major functions, edge cases, and state-changing operations in `".

(** Goals six and seven; [questions.py], lines 1235-1237. *)
Definition qg_goals_3 : string :=
"`
6. **Respect Trust Model**: Uniswap pools and oracles are trusted; focus on attacks by regular users or attackers
7. **No Generic Questions**: Avoid " ++ dq ++ "are there reentrancy issues?" ++ dq ++ " → Instead: " ++ dq ++ "In `".

(** End of the seventh goal; [questions.py], lines 1237-1239. *)
Definition qg_goals_4 : string :=
": functionName()`, if condition X occurs, can attacker exploit Y to cause Z impact?" ++ dq ++ "

---

".

(** Tagged-line question format; [questions.py], lines 1241-1247. *)
Definition qg_format_1 : string :=
"## **Question Format Template**

Each question MUST follow this Python list format:

```python
questions = [
    " ++ dq ++ "[File: ".

(** First tagged line of the format; [questions.py], lines 1247-1249. *)
Definition qg_format_2 : string :=
"] [Function: functionName()] [Vulnerability Type] Specific question describing attack vector, preconditions, and impact linking to Immunefi categories?" ++ dq ++ ",
    
    " ++ dq ++ "[File: ".

(** Second tagged line of the format; [questions.py], lines 1249-1253. *)
Definition qg_format_3 : string :=
"] [Function: anotherFunction()] [Vulnerability Type] Another specific question with concrete exploit scenario?" ++ dq ++ ",
    
    # ... continue with all generated questions
]
```

".

(** Worked example of the format; [questions.py], lines 1255-1266. *)
Definition qg_format_example : string :=
"**Example Format** (if target_file is `contracts/PanopticPool.sol`):
```python
questions = [
    " ++ dq ++ "[File: contracts/PanopticPool.sol] [Function: dispatch()] [Solvency bypass] Can an attacker craft a malicious positionIdList that passes initial solvency checks but becomes insolvent after the first leg is minted, allowing them to open undercollateralized positions and potentially drain protocol funds?" ++ dq ++ ",
    
    " ++ dq ++ "[File: contracts/PanopticPool.sol] [Function: _settlePremium()] [Premium manipulation] Does the premium settlement logic correctly handle edge cases where settled premium is less than owed premium, potentially allowing attackers to manipulate premium accumulation and extract excess value from sellers?" ++ dq ++ ",
    
    " ++ dq ++ "[File: contracts/PanopticPool.sol] [Function: liquidateAccount()] [Liquidation bonus extraction] Can a liquidator manipulate the oracle tick between solvency check and liquidation execution to extract higher liquidation bonuses than intended, causing protocol loss?" ++ dq ++ ",
]
```

---

".

(** Output requirements; [questions.py], lines 1268-1270. *)
Definition qg_output_1 : string :=
"## **Output Requirements**

Generate security audit questions focusing EXCLUSIVELY on **`".

(** First requirement; [questions.py], lines 1270-1272. *)
Definition qg_output_2 : string :=
"`** that:

1. **Target ONLY `".

(** Second requirement; [questions.py], lines 1272-1273. *)
Definition qg_output_3 : string :=
"`** - all questions must reference this file
2. **Reference specific functions, variables, or logic sections** within `".

(** Third requirement; [questions.py], lines 1273-1274. *)
Definition qg_output_4 : string :=
"`
3. **Describe concrete attack vectors** (not " ++ dq ++ "could there be a bug?" ++ dq ++ " but " ++ dq ++ "can attacker do X by exploiting Y in `".

(** Requirements three to six; [questions.py], lines 1274-1277. *)
Definition qg_output_5 : string :=
"`?" ++ dq ++ ")
4. **Tie to Immunefi impact categories** (fund loss, freezing, insolvency, manipulation, DoS)
5. **Respect trust model** (Uniswap and oracles are trusted; focus on user/attacker actions)
6. **Cover diverse attack surfaces** within `".

(** Requirements six to ten; [questions.py], lines 1277-1281. *)
Definition qg_output_6 : string :=
"`: validation logic, state transitions, error handling, edge cases, interactions with other contracts
7. **Focus on high-severity bugs**: prioritize Critical > High > Medium impacts
8. **Avoid out-of-scope issues**: gas optimization, UI bugs, theoretical attacks without economic impact
9. **Use the exact Python list format** shown above
10. **Be detailed and technical**: assume auditor has deep DeFi knowledge; use precise terminology

".

(** Target question count by declared file size; [questions.py], lines 1283-1287. *)
Definition qg_target_count : string :=
"**Target Question Count:**
- For large critical files (>1000 nSLOC like PanopticPool.sol, RiskEngine.sol): Aim for 100-150 questions
- For medium files (300-1000 nSLOC): Aim for 50-100 questions  
- For smaller files (<300 nSLOC): Aim for 20-50 questions
- **Provide as many quality questions as the file's complexity allows - do NOT return empty results**

".

(** Final instruction; [questions.py], line 1289. *)
Definition qg_begin : string :=
"**Begin generating questions for `".

(** End of the prompt; [questions.py], line 1289. *)
Definition qg_end : string :=
"` now.
".

(** [question_generator], [questions.py] lines 998-1291: the f-string, its literal text in
    the pieces above and [target_file] in each slot. *)
Definition question_generator (target_file : string) : string :=
  qg_context
  ++ target_file
  ++ qg_scope_note
  ++ target_file
  ++ qg_scope_floor
  ++ qg_full_context
  ++ qg_core_files
  ++ qg_total
  ++ target_file
  ++ qg_total_end
  ++ qg_architecture
  ++ qg_invariants
  ++ qg_vulnerability_categories
  ++ qg_impact_categories
  ++ qg_goals_1
  ++ target_file
  ++ qg_goals_2
  ++ target_file
  ++ qg_goals_3
  ++ target_file
  ++ qg_goals_4
  ++ qg_format_1
  ++ target_file
  ++ qg_format_2
  ++ target_file
  ++ qg_format_3
  ++ qg_format_example
  ++ qg_output_1
  ++ target_file
  ++ qg_output_2
  ++ target_file
  ++ qg_output_3
  ++ target_file
  ++ qg_output_4
  ++ target_file
  ++ qg_output_5
  ++ target_file
  ++ qg_output_6
  ++ qg_target_count
  ++ qg_begin
  ++ target_file
  ++ qg_end.

(** The literal text of [question_generator]: the groups of segments between two
    occurrences of [{target_file}], in order. *)
Definition question_generator_literals : list (list string) :=
  [ [qg_context];
    [qg_scope_note];
    [qg_scope_floor; qg_full_context; qg_core_files; qg_total];
    [qg_total_end; qg_architecture; qg_invariants; qg_vulnerability_categories; qg_impact_categories; qg_goals_1];
    [qg_goals_2];
    [qg_goals_3];
    [qg_goals_4; qg_format_1];
    [qg_format_2];
    [qg_format_3; qg_format_example; qg_output_1];
    [qg_output_2];
    [qg_output_3];
    [qg_output_4];
    [qg_output_5];
    [qg_output_6; qg_target_count; qg_begin];
    [qg_end] ].

(** ** Named parts of the prompts

    The texts that the properties below speak about, all taken from the
    templates above. *)

Definition show_nat (n : nat) : string :=
  NilEmpty.string_of_uint (Nat.to_uint n).

(** Titles of the invariant catalog, [questions.py] lines 94-177 (and again
    lines 1099-1136). *)
Definition invariant_titles : list string :=
  [ "Solvency Maintenance";
    "Collateral Conservation";
    "Share Price Monotonicity";
    "Interest Index Monotonicity";
    "Cross-Collateral Limits";
    "Position Size Limits";
    "Oracle Delta Limits";
    "Safe Mode Activation";
    "TWAP Accuracy";
    "Price Consistency";
    "Liquidation Price Bounds";
    "Position Encoding Validity";
    "Leg Count Limits";
    "Premium Accounting";
    "Force Exercise Costs";
    "Liquidation Completeness";
    "Asset Accounting";
    "Deposit Limits";
    "Share Transfer Restrictions";
    "Credited Shares Logic";
    "Interest Accuracy";
    "Liquidation Bonus Caps";
    "Premium Haircutting";
    "Protocol Loss Limits";
    "Force Exercise Validation";
    "Solvency Check Timing" ].

(** How a catalog entry opens: its number, then its title in bold. *)
Definition entry_marker (n : nat) (title : string) : string :=
  show_nat n ++ ". **" ++ title ++ "**: ".

Fixpoint number_from (n : nat) (titles : list string) : list string :=
  match titles with
  | [] => []
  | t :: titles' => entry_marker n t :: number_from (S n) titles'
  end.

Definition catalog_markers : list string := number_from 1 invariant_titles.

(** The entries of the catalog of [question_format], one per paragraph. *)
Definition qf_catalog_entries : list string :=
  Text.paragraphs qf_invariant_catalog.

(** The output-contract footer of [question_format]. *)
Definition qf_footer : string :=
  Text.join
    [qf_output_requirements; qf_validation_checklist; qf_report_format;
     qf_closing].


Definition sentinel_tag : string := "#NoVulnerability".

(** The order of sections that the specification gives for
    [compose_investigation]. *)
Definition spec_investigation_order (question : string) : list string :=
  [ qf_persona; qf_architecture; qf_invariant_catalog; qf_attack_surface;
    qf_trust_model; qf_known_issues; qf_severity; question; qf_footer ].

(** The order of the same sections in the template of [question_format]. *)
Definition code_investigation_order (question : string) : list string :=
  [ qf_persona; question; qf_architecture; qf_invariant_catalog;
    qf_attack_surface; qf_trust_model; qf_known_issues; qf_severity;
    qf_footer ].

(** The segments of [question_format], grouped by the sections that the
    specification names. *)
Definition investigation_sections (question : string) : list (list string) :=
  [ [qf_persona];
    [question];
    [qf_architecture];
    [qf_key_components; qf_files_in_scope; qf_invariants_heading];
    [qf_invariant_catalog];
    [qf_mission];
    [qf_attack_surface];
    [qf_attack_vectors];
    [qf_trust_model];
    [qf_known_issues];
    [qf_severity];
    [qf_output_requirements; qf_validation_checklist; qf_report_format;
     qf_closing] ].

(** The question of the specification's scenario. *)
Definition scenario_question : string :=
  "Can utilization manipulation affect interest rates?".



(** File names that a listing gives between backquotes. *)
Definition listed_files (listing : string) : list string :=
  Text.enclosed "`" listing.

(** Paths that the [core_files] listing gives between double quotes. *)
Definition quoted_paths (listing : string) : list string :=
  Text.enclosed "034" listing.

(** The inventory entry that [core_files] leaves out. *)
Definition token_id_path : string := "./contracts/types/TokenId.sol".

(** The target-count instruction of a question-generation prompt: what
    stands between its heading and the final instruction. *)
Definition target_count_instruction (prompt : string) : option string :=
  match Text.after_first "**Target Question Count:**" prompt with
  | Some rest => Text.before_first "**Begin generating questions" rest
  | None => None
  end.

(** The two target files of the specification's scenario. *)
Definition risk_engine : string := "contracts/RiskEngine.sol".

Definition pool_data : string := "contracts/PoolData.sol".

(** The three tiers of the instruction, largest first. *)
Definition target_count_tiers : list string :=
  [ "(>1000 nSLOC like PanopticPool.sol, RiskEngine.sol): Aim for 100-150 questions";
    "(300-1000 nSLOC): Aim for 50-100 questions";
    "(<300 nSLOC): Aim for 20-50 questions" ].

(** *** Calls in the state of the process

    A call of a function of the module runs in a state, the file system
    and the globals of the module, returns or raises, and leaves a state.
    [questions.py] line 15 binds [questions] when the module is loaded. *)

Record globals : Type := {
  g_BASE_URL : string;
  g_questions : json;
  g_questions_generator : list string
}.

Record process : Type := {
  files : filesystem;
  module_globals : globals
}.

Definition Call (A : Type) : Type := process -> result A * process.

Definition outcome {A : Type} (c : Call A) (st : process) : result A :=
  fst (c st).

Definition state_after {A : Type} (c : Call A) (st : process) : process :=
  snd (c st).

(** Loading the module: its three global bindings. *)
Definition import_module (fs : filesystem) : result process :=
  qs <- load_corpus fs ;;
  Return {| files := fs;
            module_globals :=
              {| g_BASE_URL := BASE_URL;
                 g_questions := qs;
                 g_questions_generator := questions_generator |} |}.

(** The bodies of the composers name their argument and nothing else:
    a call reads no global and no file, and writes none. *)
Definition question_format_call (question : string) : Call string :=
  fun st => (Return (question_format question), st).

Definition validation_format_call (report : string) : Call string :=
  fun st => (Return (validation_format report), st).

Definition question_generator_call (target_file : string) : Call string :=
  fun st => (Return (question_generator target_file), st).

(** All the segments of a prompt, the argument in each slot. *)
Definition prompt_segments (literals : list (list string)) (value : string)
  : list string :=
  concat (Text.with_slots value literals).

(** A prompt is whole: not empty, opening with the first literal of its
    template, closing with the last, and holding every segment of the
    template in order, the argument in each slot. *)
Definition whole (literals : list (list string)) (first last : string)
    (value prompt : string) : Prop :=
  prompt <> EmptyString
  /\ Text.starts_with first prompt
  /\ Text.ends_with last prompt
  /\ Text.in_order (prompt_segments literals value) prompt.

(** Corpus files that hold an object, a string, a number. *)
Definition object_corpus : string :=
  "{" ++ dq ++ "q" ++ dq ++ ": " ++ dq ++ "x" ++ dq ++ "}".

Definition string_corpus : string := dq ++ "x" ++ dq.

Definition number_corpus : string := "7".

(** ** Further vocabulary

    What the properties beyond the specification's speak about: sizes,
    the second catalog, the sizes that the listings declare. *)





(** The first run of digits of a text. *)
Fixpoint first_digits (s : string) : string :=
  match s with
  | EmptyString => EmptyString
  | String c s' =>
      if Json.is_digit c then fst (Json.span_digits s) else first_digits s'
  end.

(** Each name of a listing with the first number that follows it. *)
Fixpoint named_sizes (pieces : list string) : list (string * Z) :=
  match pieces with
  | name :: after :: rest =>
      (name, Json.decimal 0 (first_digits after)) :: named_sizes rest
  | _ => []
  end.

(** The sizes, in nSLOC, that a listing declares for the files it names
    between two delimiters. *)
Definition declared_sizes (delim : ascii) (listing : string)
  : list (string * Z) :=
  named_sizes (tl (Text.split_on delim listing)).

Fixpoint size_of (table : list (string * Z)) (name : string) : option Z :=
  match table with
  | [] => None
  | (n, s) :: table' => if String.eqb n name then Some s else size_of table' name
  end.

(** Every size of the first table is the size of the same file in the
    second. *)
Definition agree (t1 t2 : list (string * Z)) : Prop :=
  forall name size, In (name, size) t1 -> size_of t2 name = Some size.

Definition agreeb (t1 t2 : list (string * Z)) : bool :=
  forallb (fun '(name, size) =>
             match size_of t2 name with
             | Some size' => Z.eqb size size'
             | None => false
             end) t1.

Definition qf_sizes : list (string * Z) :=
  declared_sizes "`" qf_key_components.

Definition vf_sizes : list (string * Z) :=
  declared_sizes "`" vf_in_scope_files.

Definition qg_sizes : list (string * Z) :=
  map (fun '(path, size) => (Text.basename path, size))
    (declared_sizes "034" qg_core_files).

(** The files that a table declares larger than 1000 nSLOC. *)
Definition large_files (table : list (string * Z)) : list string :=
  map fst (filter (fun '(_, size) => Z.ltb 1000 size) table).

(** Size of a text in bytes. *)
Definition size (s : string) : N := N.of_nat (String.length s).

(** ** Reading the requested count off a question-generation prompt

    The prompt does not state one count: its output-contract section names
    the target file, its [core_files] listing declares a size for that
    file, and its target-count instruction gives a range of questions for
    each range of sizes.  The count that a prompt requests is what these
    three say together. *)

(** A range of declared sizes, as the instruction writes it: [>n], [<n]
    or [a-b]. *)
Inductive size_range : Type :=
| Above (n : Z)
| Below (n : Z)
| Between (a b : Z).

Definition in_range (r : size_range) (sz : Z) : bool :=
  match r with
  | Above n => Z.ltb n sz
  | Below n => Z.ltb sz n
  | Between a b => Z.leb a sz && Z.leb sz b
  end.

(** A line of the instruction: the sizes it is for and the range of
    questions to aim for. *)
Record tier : Type := {
  tier_sizes : size_range;
  aim_low : Z;
  aim_high : Z
}.

(** The number that a text starts with, other characters skipped. *)
Definition number (s : string) : Z := Json.decimal 0 (first_digits s).

Definition parse_range (s : string) : option size_range :=
  match s with
  | String c r =>
      if Ascii.eqb c ">" then Some (Above (number r))
      else if Ascii.eqb c "<" then Some (Below (number r))
      else match Text.split_on "-" s with
           | [a; b] => Some (Between (number a) (number b))
           | _ => None
           end
  | EmptyString => None
  end.

(** [- For ... (<sizes> nSLOC ...): Aim for <low>-<high> questions]. *)
Definition parse_tier (line : string) : option tier :=
  match Text.after_first "(" line, Text.after_first "Aim for " line with
  | Some condition, Some aim =>
      match Text.before_first " nSLOC" condition, Text.split_on "-" aim with
      | Some sizes, [low; high] =>
          match parse_range sizes with
          | Some r =>
              Some {| tier_sizes := r;
                      aim_low := number low;
                      aim_high := number high |}
          | None => None
          end
      | _, _ => None
      end
  | _, _ => None
  end.

Fixpoint parse_tiers (lines : list string) : list tier :=
  match lines with
  | [] => []
  | line :: lines' =>
      match parse_tier line with
      | Some t => t :: parse_tiers lines'
      | None => parse_tiers lines'
      end
  end.

(** The tiers of the target-count instruction of a prompt. *)
Definition prompt_tiers (prompt : string) : list tier :=
  match target_count_instruction prompt with
  | Some instruction => parse_tiers (Text.split_on "010" instruction)
  | None => []
  end.

(** The range of questions of the first tier that a size falls in. *)
Fixpoint aim_for (tiers : list tier) (sz : Z) : option (Z * Z) :=
  match tiers with
  | [] => None
  | t :: tiers' =>
      if in_range (tier_sizes t) sz then Some (aim_low t, aim_high t)
      else aim_for tiers' sz
  end.

(** The sizes that the [core_files] listing of a prompt declares, by file
    name. *)
Definition prompt_declared_sizes (prompt : string) : list (string * Z) :=
  match Text.after_first "core_files = [" prompt with
  | Some rest =>
      match Text.before_first "]" rest with
      | Some listing =>
          map (fun '(path, sz) => (Text.basename path, sz))
            (declared_sizes "034" listing)
      | None => []
      end
  | None => []
  end.

(** The output-contract section of a prompt, from its heading on. *)
Definition output_contract (prompt : string) : option string :=
  Text.after_first "## **Output Requirements**" prompt.

(** The target file that the output-contract section names. *)
Definition contract_target (prompt : string) : option string :=
  match output_contract prompt with
  | Some section =>
      match Text.after_first "focusing EXCLUSIVELY on **`" section with
      | Some rest => Text.before_first "`**" rest
      | None => None
      end
  | None => None
  end.

(** The range of questions that a prompt requests for its target. *)
Definition requested_count (prompt : string) : option (Z * Z) :=
  match contract_target prompt with
  | Some target =>
      match size_of (prompt_declared_sizes prompt) (Text.basename target) with
      | Some sz => aim_for (prompt_tiers prompt) sz
      | None => None
      end
  | None => None
  end.

(** The three tiers as the template writes them, [questions.py] lines
    1284-1286. *)
Definition tier_for (sz : Z) : Z * Z :=
  if Z.ltb 1000 sz then (100, 150)%Z
  else if Z.leb 300 sz then (50, 100)%Z
  else (20, 50)%Z.

(** The first prompt requests more questions than the second: its range
    lies above the other's at both ends. *)
Definition requests_more (p1 p2 : string) : Prop :=
  exists low1 high1 low2 high2,
    requested_count p1 = Some (low1, high1)
    /\ requested_count p2 = Some (low2, high2)
    /\ (low2 < low1)%Z /\ (high2 < high1)%Z.

(** The request of the prompt of a listed file is the tier of the size
    that the prompt declares for it. *)
Definition request_follows_size (path : string) : bool :=
  let prompt := question_generator path in
  match size_of (prompt_declared_sizes prompt) (Text.basename path),
        requested_count prompt with
  | Some sz, Some (low, high) =>
      let '(l, h) := tier_for sz in Z.eqb low l && Z.eqb high h
  | _, _ => false
  end.

(** * Properties *)

(** ** Facts about the text toolkit *)

Module TextFacts.
Import Text.

Lemma append_assoc (a b c : string) : (a ++ b) ++ c = a ++ b ++ c.
Proof.
  induction a as [|x a IH]; simpl; [reflexivity | now rewrite IH].
Qed.

Lemma append_nil_r (a : string) : a ++ EmptyString = a.
Proof.
  induction a as [|x a IH]; simpl; [reflexivity | now rewrite IH].
Qed.

Lemma length_append (a b : string) :
  String.length (a ++ b) = String.length a + String.length b.
Proof.
  induction a as [|x a IH]; simpl; [reflexivity | now rewrite IH].
Qed.

Lemma append_eq_nil (a b : string) :
  a ++ b = EmptyString -> a = EmptyString /\ b = EmptyString.
Proof.
  destruct a; simpl; [auto | discriminate].
Qed.

(** Two ways of cutting one text: the longer tail ends with the shorter. *)
Lemma tail_of_longer_cut (x y u v : string) :
  x ++ y = u ++ v -> String.length x <= String.length u ->
  exists e, y = e ++ v.
Proof.
  revert u; induction x as [|c x IH]; intros u E L.
  - exists u. exact E.
  - destruct u as [|d u]; simpl in L; [lia|].
    simpl in E. injection E as _ E.
    apply (IH u E). lia.
Qed.

Lemma strip_prefix_spec (p s r : string) :
  strip_prefix p s = Some r <-> s = p ++ r.
Proof.
  revert s; induction p as [|a p IH]; intros s; simpl.
  - split; intros H; [injection H as ->; reflexivity | now subst].
  - destruct s as [|b s].
    + split; discriminate.
    + destruct (Ascii.eqb_spec a b) as [->|N].
      * rewrite IH. split; [intros ->; reflexivity | intros H; now injection H].
      * split; [discriminate | intros H; injection H as H _; congruence].
Qed.

Lemma strip_prefix_append (p r : string) : strip_prefix p (p ++ r) = Some r.
Proof. now apply strip_prefix_spec. Qed.

Lemma starts_withb_spec (p s : string) :
  starts_withb p s = true <-> starts_with p s.
Proof.
  unfold starts_withb, starts_with. split.
  - destruct (strip_prefix p s) as [r|] eqn:E; [|discriminate].
    intros _. exists r. now apply strip_prefix_spec.
  - intros [r ->]. now rewrite strip_prefix_append.
Qed.

Lemma all2_Forall2 {A B : Type} (f : A -> B -> bool) (R : A -> B -> Prop) :
  (forall a b, f a b = true -> R a b) ->
  forall l1 l2, all2 f l1 l2 = true -> Forall2 R l1 l2.
Proof.
  intros HR. induction l1 as [|a l1 IH]; intros [|b l2]; simpl;
    try discriminate.
  - constructor.
  - intros H. apply andb_prop in H as [H1 H2].
    constructor; [now apply HR | now apply IH].
Qed.

Lemma find_first_sound (p s a b : string) :
  find_first p s = Some (a, b) -> s = a ++ p ++ b.
Proof.
  revert a; induction s as [|c s IH]; intros a; simpl.
  - destruct (strip_prefix p EmptyString) eqn:E; [|discriminate].
    intros H; injection H as <- <-. now apply strip_prefix_spec in E.
  - destruct (strip_prefix p (String c s)) eqn:E.
    + intros H; injection H as <- <-. now apply strip_prefix_spec in E.
    + destruct (find_first p s) as [[a' b']|]; [|discriminate].
      intros H; injection H as <- <-. simpl. now rewrite <- (IH a').
Qed.

(** The cut of [find_first] is the leftmost one. *)
Lemma find_first_least (p s a b : string) :
  s = a ++ p ++ b ->
  exists a0 b0 d e,
    find_first p s = Some (a0, b0) /\ a = a0 ++ d /\ b0 = e ++ b.
Proof.
  revert a; induction s as [|c s IH]; intros a E.
  - symmetry in E. apply append_eq_nil in E as [-> E].
    apply append_eq_nil in E as [-> ->].
    exists EmptyString, EmptyString, EmptyString, EmptyString. now simpl.
  - simpl. destruct (strip_prefix p (String c s)) as [r|] eqn:S.
    + apply strip_prefix_spec in S.
      destruct (tail_of_longer_cut p r (a ++ p) b) as [e He].
      * rewrite <- S, E. now rewrite append_assoc.
      * rewrite length_append. lia.
      * exists EmptyString, r, a, e. now simpl.
    + destruct a as [|c' a].
      * simpl in E. rewrite E, strip_prefix_append in S. discriminate.
      * simpl in E. injection E as <- E.
        destruct (IH a E) as (a0 & b0 & d & e & F & Ha & Hb).
        rewrite F. exists (String c a0), b0, d, e. simpl. now rewrite Ha.
Qed.

Lemma after_first_find_first (p s : string) :
  after_first p s = option_map snd (find_first p s).
Proof.
  induction s as [|c s IH]; simpl.
  - now destruct (strip_prefix p EmptyString).
  - destruct (strip_prefix p (String c s)); [reflexivity|].
    rewrite IH. now destruct (find_first p s) as [[? ?]|].
Qed.

Lemma after_first_sound (p s b : string) :
  after_first p s = Some b -> exists a, s = a ++ p ++ b.
Proof.
  rewrite after_first_find_first.
  destruct (find_first p s) as [[a b']|] eqn:F; [|discriminate].
  simpl. intros H; injection H as <-. exists a. now apply find_first_sound.
Qed.

Lemma after_first_least (p s a b : string) :
  s = a ++ p ++ b -> exists b0 e, after_first p s = Some b0 /\ b0 = e ++ b.
Proof.
  intros E. destruct (find_first_least p s a b E) as (a0 & b0 & d & e & F & _ & Hb).
  exists b0, e. rewrite after_first_find_first, F. now split.
Qed.

Lemma containsb_spec (p s : string) : containsb p s = true <-> contains p s.
Proof.
  unfold containsb, contains. split.
  - destruct (after_first p s) as [b|] eqn:F; [|discriminate].
    intros _. destruct (after_first_sound _ _ _ F) as [a E]. now exists a, b.
  - intros (a & b & E).
    destruct (after_first_least p s a b E) as (b0 & e & F & _). now rewrite F.
Qed.


Lemma forallb_contains (ps : list string) (s : string) :
  forallb (fun p => containsb p s) ps = true ->
  Forall (fun p => contains p s) ps.
Proof.
  intros H. apply Forall_forall. intros p I.
  apply containsb_spec. revert p I. now apply forallb_forall.
Qed.

Lemma contains_refl (p : string) : contains p p.
Proof. exists EmptyString, EmptyString. simpl. now rewrite append_nil_r. Qed.

Lemma contains_head (p b : string) : contains p (p ++ b).
Proof. now exists EmptyString, b. Qed.

Lemma contains_skip (p a s : string) : contains p s -> contains p (a ++ s).
Proof.
  intros (x & y & ->). exists (a ++ x), y. now rewrite append_assoc.
Qed.

Lemma contains_left (p s b : string) : contains p s -> contains p (s ++ b).
Proof.
  intros (x & y & ->). exists x, (y ++ b). now rewrite !append_assoc.
Qed.

Lemma contains_trans (p q s : string) :
  contains p q -> contains q s -> contains p s.
Proof.
  intros (a & b & ->) (c & d & ->).
  exists (c ++ a), (b ++ d). now rewrite !append_assoc.
Qed.

Lemma Forall_contains_trans (ps : list string) (q s : string) :
  Forall (fun p => contains p q) ps -> contains q s ->
  Forall (fun p => contains p s) ps.
Proof.
  intros H C. eapply Forall_impl; [|exact H].
  intros p Hp. exact (contains_trans p q s Hp C).
Qed.

Lemma in_order_shift (ps : list string) (e b : string) :
  in_order ps b -> in_order ps (e ++ b).
Proof.
  destruct ps as [|p ps]; simpl; [trivial|].
  intros (x & y & -> & H). exists (e ++ x), y. now rewrite append_assoc.
Qed.

(** Texts found inside texts that occur in order occur in that order. *)
Lemma in_order_refine (ps xs : list string) :
  Forall2 contains ps xs -> forall s, in_order xs s -> in_order ps s.
Proof.
  induction 1 as [|p x ps xs (u & v & ->) _ IH]; intros s; [trivial|].
  intros (a & b & -> & H). exists (a ++ u), (v ++ b). split.
  - now rewrite !append_assoc.
  - apply in_order_shift. now apply IH.
Qed.

Lemma in_orderb_spec (ps : list string) (s : string) :
  in_orderb ps s = true <-> in_order ps s.
Proof.
  revert s; induction ps as [|p ps IH]; intros s; simpl.
  - tauto.
  - split.
    + destruct (after_first p s) as [b|] eqn:F; [|discriminate].
      intros H. destruct (after_first_sound _ _ _ F) as [a E].
      exists a, b. split; [exact E | now apply IH].
    + intros (a & b & E & H).
      destruct (after_first_least p s a b E) as (b0 & e & F & ->).
      rewrite F. apply IH. now apply in_order_shift.
Qed.

Lemma in_orderb_false (ps : list string) (s : string) :
  in_orderb ps s = false -> ~ in_order ps s.
Proof.
  intros F C. apply in_orderb_spec in C. congruence.
Qed.

(** *** Segments of a template *)

Lemma join_cons (x : string) (l : list string) : join (x :: l) = x ++ join l.
Proof.
  destruct l; simpl; [now rewrite append_nil_r | reflexivity].
Qed.

Lemma join_app (l1 l2 : list string) : join (l1 ++ l2) = join l1 ++ join l2.
Proof.
  induction l1 as [|x l1 IH]; [reflexivity|].
  change ((x :: l1) ++ l2)%list with (x :: (l1 ++ l2)%list).
  now rewrite !join_cons, IH, append_assoc.
Qed.

Lemma join_concat (groups : list (list string)) :
  join (concat groups) = join (map join groups).
Proof.
  induction groups as [|g groups IH]; [reflexivity|].
  change (concat (g :: groups)) with (g ++ concat groups)%list.
  change (map join (g :: groups)) with (join g :: map join groups).
  now rewrite join_app, join_cons, IH.
Qed.

Lemma contains_join (l : list string) (p : string) :
  In p l -> contains p (join l).
Proof.
  induction l as [|x l IH]; [contradiction|].
  rewrite join_cons. intros [->|I].
  - apply contains_head.
  - apply contains_skip. now apply IH.
Qed.

Lemma pick_in_order (l : list string) (positions : list nat) :
  forall from ps, pick from l positions = Some ps -> in_order ps (join l).
Proof.
  revert positions; induction l as [|x l IH]; intros positions from ps.
  - destruct positions; simpl; [|discriminate].
    intros H; injection H as <-. exact I.
  - destruct positions as [|i positions].
    + simpl. intros H; injection H as <-. exact I.
    + rewrite join_cons. simpl. destruct (Nat.eqb i from).
      * destruct (pick (S from) l positions) as [ps'|] eqn:P; [|discriminate].
        simpl. intros H; injection H as <-.
        exists EmptyString, (join l). split; [reflexivity|].
        exact (IH _ _ _ P).
      * intros P. apply in_order_shift. exact (IH _ _ _ P).
Qed.

Lemma in_order_join (l : list string) : in_order l (join l).
Proof.
  induction l as [|x l IH]; [exact I|].
  rewrite join_cons. exists EmptyString, (join l). now split.
Qed.

Lemma join_starts (x : string) (l : list string) : starts_with x (join (x :: l)).
Proof. exists (join l). apply join_cons. Qed.

Lemma join_ends (l : list string) (x : string) :
  ends_with x (join (l ++ [x])).
Proof. exists (join l). now rewrite join_app. Qed.

(** *** Where a text can occur in a filled template *)

(** Two cuts of one text: one of the two heads is a prefix of the other. *)
Lemma append_eq_split (x y u w : string) :
  x ++ y = u ++ w ->
  (exists d, u = x ++ d /\ y = d ++ w) \/ (exists d, x = u ++ d /\ w = d ++ y).
Proof.
  revert u; induction x as [|c x IH]; intros u E.
  - left. exists u. now split.
  - destruct u as [|c' u].
    + right. exists (String c x). now split.
    + simpl in E. injection E as <- E.
      destruct (IH u E) as [(d & -> & ->)|(d & -> & ->)];
        [left | right]; exists d; now split.
Qed.

Lemma char_in_append (c : ascii) (a b : string) :
  char_in c (a ++ b) = char_in c a || char_in c b.
Proof.
  induction a as [|x a IH]; simpl; [reflexivity|].
  now rewrite IH, orb_assoc.
Qed.

Lemma char_in_head (c : ascii) (p : string) : char_in c (String c p) = true.
Proof. simpl. now rewrite Ascii.eqb_refl. Qed.

(** A text that lacks the character [c] occurs on one side of [c]. *)
Lemma contains_cut (p x y : string) (c : ascii) :
  char_in c p = false ->
  contains p (x ++ String c y) -> contains p x \/ contains p y.
Proof.
  intros F (u & v & E).
  destruct (append_eq_split _ _ _ _ E) as [(d & -> & H)|(d & -> & H)].
  - destruct d as [|c' d].
    + destruct p as [|c' p].
      * left. exists x, EmptyString. simpl. now rewrite append_nil_r.
      * simpl in H. injection H as <- _. rewrite char_in_head in F.
        discriminate.
    + simpl in H. injection H as _ ->. right. now exists d, v.
  - destruct (append_eq_split _ _ _ _ H) as [(e & -> & _)|(e & -> & H')].
    + left. now exists u, e.
    + destruct e as [|c' e].
      * left. exists u, EmptyString. simpl. now rewrite !append_nil_r.
      * simpl in H'. injection H' as <- _.
        rewrite char_in_append, char_in_head, orb_true_r in F. discriminate.
Qed.

Lemma last_char_snoc (s : string) (c : ascii) :
  last_char s = Some c -> exists s', s = s' ++ String c EmptyString.
Proof.
  induction s as [|x s IH]; simpl; [discriminate|].
  destruct s as [|y s].
  - intros H; injection H as ->. now exists EmptyString.
  - intros H. destruct (IH H) as [s' ->]. now exists (String x s').
Qed.

Lemma edge_free_spec (p : string) (edge : option ascii) :
  edge_free p edge = true -> exists c, edge = Some c /\ char_in c p = false.
Proof.
  destruct edge as [c|]; simpl; [|discriminate].
  intros H. exists c. split; [reflexivity|].
  now apply negb_true_iff.
Qed.

(** In a guarded template, [p] can only come with the value. *)
Lemma fill_guarded (p value : string) (literals : list string) :
  forall first, guardsb p first literals = true ->
  contains p (fill value literals) -> contains p value.
Proof.
  induction literals as [|l rest IH]; intros first G C.
  - destruct C as (a & b & E). symmetry in E.
    apply append_eq_nil in E as [_ E]. apply append_eq_nil in E as [-> _].
    exists value, EmptyString. simpl. now rewrite append_nil_r.
  - simpl in G. apply andb_prop in G as [G Grest].
    apply andb_prop in G as [G Glast]. apply andb_prop in G as [Gl _].
    apply negb_true_iff in Gl.
    destruct rest as [|r rest'].
    + simpl in C. apply containsb_spec in C. congruence.
    + change (fill value (l :: r :: rest'))
        with (l ++ value ++ fill value (r :: rest')) in C.
      apply edge_free_spec in Glast as (b & Hb & Fb).
      destruct (last_char_snoc _ _ Hb) as [l' El].
      rewrite El, append_assoc in C.
      destruct (contains_cut p l' (value ++ fill value (r :: rest')) b Fb C)
        as [C1|C1].
      * apply (contains_left p l' (String b EmptyString)) in C1.
        rewrite <- El in C1. apply containsb_spec in C1. congruence.
      * assert (Gr := Grest). simpl in Gr.
        apply andb_prop in Gr as [Gr _]. apply andb_prop in Gr as [Gr _].
        apply andb_prop in Gr as [_ Gfirst]. simpl in Gfirst.
        apply edge_free_spec in Gfirst as (a & Ha & Fa).
        destruct r as [|a' r']; [discriminate|].
        simpl in Ha. injection Ha as ->.
        destruct rest' as [|g rest''].
        -- destruct (contains_cut p value r' a Fa C1) as [C2|C2].
           ++ exact C2.
           ++ apply (IH false Grest).
              exact (contains_skip p (String a EmptyString) r' C2).
        -- destruct (contains_cut p value
                       (r' ++ value ++ fill value (g :: rest'')) a Fa C1)
             as [C2|C2].
           ++ exact C2.
           ++ apply (IH false Grest).
              exact (contains_skip p (String a EmptyString) _ C2).
Qed.

Lemma fill_groups (value : string) (groups : list (list string)) :
  join (concat (with_slots value groups)) = fill value (map join groups).
Proof.
  induction groups as [|g rest IH]; [reflexivity|].
  destruct rest as [|g' rest'].
  - simpl. now rewrite app_nil_r.
  - change (with_slots value (g :: g' :: rest'))
      with (g :: [value] :: with_slots value (g' :: rest')).
    change (map join (g :: g' :: rest'))
      with (join g :: map join (g' :: rest')).
    change (fill value (join g :: map join (g' :: rest')))
      with (join g ++ value ++ fill value (map join (g' :: rest'))).
    rewrite <- IH.
    change (concat (g :: [value] :: with_slots value (g' :: rest')))
      with (g ++ [value] ++ concat (with_slots value (g' :: rest')))%list.
    now rewrite !join_app.
Qed.


(** *** Lists of names *)

Lemma existsb_eqb_In (x : string) (l : list string) :
  existsb (String.eqb x) l = true <-> In x l.
Proof.
  rewrite existsb_exists. split.
  - intros (y & I & E). apply String.eqb_eq in E. now subst.
  - intros I. exists x. split; [exact I | apply String.eqb_refl].
Qed.

Lemma subsetb_incl (a b : list string) : subsetb a b = true -> incl a b.
Proof.
  unfold subsetb. rewrite forallb_forall. intros H x I.
  apply existsb_eqb_In. now apply H.
Qed.

Lemma same_names_check (a b : list string) :
  subsetb a b = true -> subsetb b a = true -> same_names a b.
Proof.
  intros H1 H2 x. split.
  - apply (subsetb_incl _ _ H1).
  - apply (subsetb_incl _ _ H2).
Qed.

Lemma distinctb_NoDup (l : list string) : distinctb l = true -> NoDup l.
Proof.
  induction l as [|x l IH]; simpl; [constructor|].
  intros H. apply andb_prop in H as [H1 H2]. constructor.
  - intros I. apply existsb_eqb_In in I. rewrite I in H1. discriminate.
  - now apply IH.
Qed.

End TextFacts.

(** ** The composers as filled templates *)

Module Templates.
Import Text TextFacts.

(** Each composer is its literal text with the argument in every slot. *)
Lemma question_format_fill (question : string) :
  question_format question
  = fill question (map join question_format_literals).
Proof. rewrite <- fill_groups. reflexivity. Qed.

Lemma validation_format_fill (report : string) :
  validation_format report
  = fill report (map join validation_format_literals).
Proof. rewrite <- fill_groups. reflexivity. Qed.

Lemma question_generator_fill (target_file : string) :
  question_generator target_file
  = fill target_file (map join question_generator_literals).
Proof. rewrite <- fill_groups. reflexivity. Qed.

Lemma contains_fill (value : string) (literals : list string) (l : string) :
  In l literals -> contains l (fill value literals).
Proof.
  induction literals as [|x rest IH]; [contradiction|].
  destruct rest as [|y rest'].
  - intros [->|[]]. apply contains_refl.
  - change (fill value (x :: y :: rest'))
      with (x ++ value ++ fill value (y :: rest')).
    intros [->|I].
    + apply contains_head.
    + apply contains_skip, contains_skip. now apply IH.
Qed.

(** The segment at position [j] of the group at position [i] occurs in the
    filled template. *)
Lemma contains_segment (value : string) (groups : list (list string))
      (i j : nat) (g : list string) (s : string) :
  nth_error groups i = Some g -> nth_error g j = Some s ->
  contains s (fill value (map join groups)).
Proof.
  intros Hg Hs. apply (contains_trans s (join g)).
  - apply contains_join. exact (nth_error_In g j Hs).
  - apply contains_fill, in_map. exact (nth_error_In groups i Hg).
Qed.

End Templates.

(** ** Order of the sections of an investigation prompt *)

Module Investigation.
Import Text TextFacts Templates.

Lemma question_format_sections (question : string) :
  question_format question
  = join (map join (investigation_sections question)).
Proof.
  rewrite <- join_concat. reflexivity.
Qed.

(** The question is not found after the severity taxonomy. *)
Lemma question_not_after_severity :
  in_orderb [qf_severity; scenario_question]
    (question_format scenario_question) = false.
Proof. vm_compute. reflexivity. Qed.

Lemma spec_order_rejected :
  in_orderb (spec_investigation_order scenario_question)
    (question_format scenario_question) = false.
Proof. vm_compute. reflexivity. Qed.

(** C3, as the specification states it, fails for the scenario question:
    the sections of its prompt do not occur in the order persona,
    architecture, catalog, attack surface, trust model, known issues,
    severity, question, footer. *)
Lemma spec_investigation_order_fails :
  ~ in_order (spec_investigation_order scenario_question)
      (question_format scenario_question).
Proof.
  apply in_orderb_false. exact spec_order_rejected.
Qed.

(** C3, amended: for every question the prompt is the literal text of the
    template with the question in its one slot; it opens with the persona
    framing immediately followed by the question, and then holds, in this
    order, the architecture primer, the invariant catalog, the
    attack-surface checklists, the trust model, the known-issue list, the
    severity taxonomy and the output-contract footer, with which it
    ends. *)
Theorem question_format_order (question : string) :
  question_format question
  = fill question (map join question_format_literals)
  /\ List.length question_format_literals = 2
  /\ starts_with (qf_persona ++ question ++ qf_architecture)
       (question_format question)
  /\ in_order (code_investigation_order question) (question_format question)
  /\ ends_with qf_footer (question_format question).
Proof.
  split; [apply question_format_fill|].
  split; [reflexivity|].
  rewrite (question_format_sections question).
  split; [|split].
  - exists (join (map join (skipn 3 (investigation_sections question)))).
    change (investigation_sections question)
      with (firstn 3 (investigation_sections question)
            ++ skipn 3 (investigation_sections question))%list.
    rewrite map_app, join_app. f_equal.
  - apply (pick_in_order _ [0; 1; 2; 4; 6; 8; 9; 10; 11] 0). reflexivity.
  - change (investigation_sections question)
      with (firstn 11 (investigation_sections question)
            ++ [[qf_output_requirements; qf_validation_checklist; qf_report_format;
                 qf_closing]])%list.
    rewrite map_app. apply join_ends.
Qed.

End Investigation.

(** ** Completeness of an investigation prompt *)

Module Completeness.
Import Text TextFacts Templates Investigation.

Lemma catalog_has_26_entries : List.length qf_catalog_entries = 26.
Proof. vm_compute. reflexivity. Qed.

Lemma titles_count : List.length invariant_titles = 26.
Proof. reflexivity. Qed.

(** The n-th paragraph of the catalog opens with the number n and the n-th
    title. *)
Lemma catalog_entries_numbered :
  Forall2 starts_with catalog_markers qf_catalog_entries.
Proof.
  apply (all2_Forall2 starts_withb).
  - intros a b. apply starts_withb_spec.
  - vm_compute. reflexivity.
Qed.

Lemma catalog_entries_in_catalog :
  Forall (fun entry => contains entry qf_invariant_catalog) qf_catalog_entries.
Proof.
  apply forallb_contains. vm_compute. reflexivity.
Qed.

Lemma section_in_question_format (question : string) (i : nat) (p : string) :
  nth_error (map join (investigation_sections question)) i = Some p ->
  contains p (question_format question).
Proof.
  rewrite question_format_sections. intros H. apply contains_join.
  exact (nth_error_In _ i H).
Qed.

(** C4: for every question, the prompt of [question_format] contains the
    persona text, each of the 26 catalog entries, the n-th of which opens
    with the marker [n.] and its title, the output-contract footer, and the
    question itself. *)
Theorem question_format_complete (question : string) :
  contains qf_persona (question_format question)
  /\ List.length qf_catalog_entries = 26
  /\ Forall2 starts_with catalog_markers qf_catalog_entries
  /\ Forall (fun entry => contains entry (question_format question))
       qf_catalog_entries
  /\ contains qf_footer (question_format question)
  /\ contains question (question_format question).
Proof.
  split; [|split; [|split; [|split; [|split]]]].
  - now apply (section_in_question_format question 0).
  - exact catalog_has_26_entries.
  - exact catalog_entries_numbered.
  - apply (Forall_contains_trans _ qf_invariant_catalog).
    + exact catalog_entries_in_catalog.
    + now apply (section_in_question_format question 4).
  - now apply (section_in_question_format question 11).
  - now apply (section_in_question_format question 1).
Qed.

(** The scenario of the specification: the question is found in its own
    prompt, which numbers its catalog entries up to 26 and no further. *)
Example scenario_prompt :
  containsb scenario_question (question_format scenario_question) = true
  /\ containsb (nl ++ "26. **") (question_format scenario_question) = true
  /\ containsb (nl ++ "27. **") (question_format scenario_question) = false.
Proof. vm_compute. auto. Qed.

End Completeness.

(** ** The no-finding sentinel *)

Module Sentinel.
Import Text TextFacts Templates.







(** No file of the inventory brings the tag. *)
Example inventory_prompts_without_sentinel :
  forallb (fun f => negb (containsb sentinel_tag (question_generator f)))
    questions_generator = true.
Proof. vm_compute. reflexivity. Qed.

End Sentinel.

(** ** The invariant catalog in the three kinds of prompt *)

Module Catalog.
Import Text TextFacts Templates Completeness.






End Catalog.

(** ** The declared and the listed files in scope *)

Module Scope.
Import Text TextFacts Templates Completeness.

Lemma inventory_facts :
  List.length questions_generator = 12
  /\ In token_id_path questions_generator
  /\ NoDup questions_generator.
Proof.
  split; [reflexivity|split].
  - apply existsb_eqb_In. reflexivity.
  - apply distinctb_NoDup. reflexivity.
Qed.

(** The listing of [question_format] names each file of the inventory once. *)
Lemma key_components_listing :
  List.length (listed_files qf_key_components) = 12
  /\ NoDup (listed_files qf_key_components)
  /\ same_names (listed_files qf_key_components)
       (map basename questions_generator).
Proof.
  split; [vm_compute; reflexivity|split].
  - apply distinctb_NoDup. vm_compute. reflexivity.
  - apply same_names_check; vm_compute; reflexivity.
Qed.

(** So does the listing of [validation_format]. *)
Lemma in_scope_listing :
  List.length (listed_files vf_in_scope_files) = 12
  /\ NoDup (listed_files vf_in_scope_files)
  /\ same_names (listed_files vf_in_scope_files)
       (map basename questions_generator).
Proof.
  split; [vm_compute; reflexivity|split].
  - apply distinctb_NoDup. vm_compute. reflexivity.
  - apply same_names_check; vm_compute; reflexivity.
Qed.

(** [core_files] gives the paths of the inventory but that of TokenId. *)
Lemma core_files_listing :
  List.length (quoted_paths qg_core_files) = 11
  /\ NoDup (quoted_paths qg_core_files)
  /\ same_names (map (append "./") (quoted_paths qg_core_files))
       (remove string_dec token_id_path questions_generator).
Proof.
  split; [vm_compute; reflexivity|split].
  - apply distinctb_NoDup. vm_compute. reflexivity.
  - apply same_names_check; vm_compute; reflexivity.
Qed.

Lemma declared_counts :
  contains "All 11 core contracts" qf_files_in_scope
  /\ starts_with "**In-Scope Files (11 total):**" vf_in_scope_files
  /\ contains "### **Core Protocol Contracts - 11 files**" qg_full_context
  /\ starts_with "**Total: 11 files in full scope" qg_total.
Proof.
  split; [|split; [|split]].
  - apply containsb_spec. vm_compute. reflexivity.
  - apply starts_withb_spec. vm_compute. reflexivity.
  - apply containsb_spec. vm_compute. reflexivity.
  - apply starts_withb_spec. vm_compute. reflexivity.
Qed.

Lemma question_generator_guards_token_id :
  guardsb "TokenId.sol" true (map join question_generator_literals) = true.
Proof. vm_compute. reflexivity. Qed.

(** C10: the inventory has 12 files, among them TokenId.sol. Every prompt
    declares 11 files in scope; the listings of [question_format] and
    [validation_format] under that label name all 12 files of the inventory,
    while [core_files] in [question_generator] lists the 11 others, and
    TokenId.sol is in such a prompt only if the target file name brings
    it. *)
Theorem in_scope_count_mismatch :
  (List.length questions_generator = 12
   /\ In token_id_path questions_generator
   /\ NoDup questions_generator)
  /\ (forall question,
        contains qf_key_components (question_format question)
        /\ contains qf_files_in_scope (question_format question))
  /\ contains "All 11 core contracts" qf_files_in_scope
  /\ (List.length (listed_files qf_key_components) = 12
      /\ NoDup (listed_files qf_key_components)
      /\ same_names (listed_files qf_key_components)
           (map basename questions_generator))
  /\ (forall report, contains vf_in_scope_files (validation_format report))
  /\ starts_with "**In-Scope Files (11 total):**" vf_in_scope_files
  /\ (List.length (listed_files vf_in_scope_files) = 12
      /\ NoDup (listed_files vf_in_scope_files)
      /\ same_names (listed_files vf_in_scope_files)
           (map basename questions_generator))
  /\ (forall target_file,
        contains qg_full_context (question_generator target_file)
        /\ contains qg_core_files (question_generator target_file)
        /\ contains qg_total (question_generator target_file))
  /\ contains "### **Core Protocol Contracts - 11 files**" qg_full_context
  /\ starts_with "**Total: 11 files in full scope" qg_total
  /\ (List.length (quoted_paths qg_core_files) = 11
      /\ NoDup (quoted_paths qg_core_files)
      /\ same_names (map (append "./") (quoted_paths qg_core_files))
           (remove string_dec token_id_path questions_generator))
  /\ (forall target_file,
        contains "TokenId.sol" (question_generator target_file) ->
        contains "TokenId.sol" target_file).
Proof.
  destruct declared_counts as (D1 & D2 & D3 & D4).
  split; [exact inventory_facts|].
  split.
  { intros question. rewrite question_format_fill. split.
    - now apply (contains_segment question question_format_literals 1 1
                   (nth 1 question_format_literals [])).
    - now apply (contains_segment question question_format_literals 1 2
                   (nth 1 question_format_literals [])). }
  split; [exact D1|].
  split; [exact key_components_listing|].
  split.
  { intros report. rewrite validation_format_fill.
    now apply (contains_segment report validation_format_literals 1 1
                 (nth 1 validation_format_literals [])). }
  split; [exact D2|].
  split; [exact in_scope_listing|].
  split.
  { intros target_file. rewrite question_generator_fill.
    split; [|split].
    - now apply (contains_segment target_file question_generator_literals 2 1
                   (nth 2 question_generator_literals [])).
    - now apply (contains_segment target_file question_generator_literals 2 2
                   (nth 2 question_generator_literals [])).
    - now apply (contains_segment target_file question_generator_literals 2 3
                   (nth 2 question_generator_literals [])). }
  split; [exact D3|].
  split; [exact D4|].
  split; [exact core_files_listing|].
  intros target_file. rewrite question_generator_fill.
  apply (fill_guarded _ _ _ true). exact question_generator_guards_token_id.
Qed.

End Scope.

(** ** The target-count instruction of a question-generation prompt *)

Module TargetCount.
Import Text TextFacts Templates.

(** Both prompts carry the same instruction, heading apart the text of
    [qg_target_count]. *)
Lemma same_instruction :
  target_count_instruction (question_generator risk_engine)
  = target_count_instruction (question_generator pool_data)
  /\ option_map (fun i => "**Target Question Count:**" ++ i)
       (target_count_instruction (question_generator pool_data))
     = Some qg_target_count.
Proof. vm_compute. split; reflexivity. Qed.

Lemma tiers_in_order : in_order target_count_tiers qg_target_count.
Proof. apply in_orderb_spec. vm_compute. reflexivity. Qed.

Lemma floor_instructions :
  contains "**DO NOT return empty results**" qg_scope_floor
  /\ contains "do NOT return empty results**" qg_target_count.
Proof.
  split; apply containsb_spec; vm_compute; reflexivity.
Qed.

Lemma question_generator_tail (target_file : string) :
  question_generator target_file
  = join (firstn 38 (prompt_segments question_generator_literals target_file))
    ++ qg_target_count ++ qg_begin ++ target_file ++ qg_end.
Proof.
  change (question_generator target_file)
    with (join
            (firstn 38 (prompt_segments question_generator_literals target_file)
             ++ [qg_target_count; qg_begin; target_file; qg_end])).
  now rewrite join_app.
Qed.

(** Every prompt of [question_generator] is one fixed text with the target
    file name in its slots, and closes with one and the same target-count
    instruction, whatever the file: three tiers by declared size. Each
    prompt tells the consumer, twice, not to return an empty result. *)
Lemma target_count_is_fixed (target_file : string) :
  question_generator target_file
  = fill target_file (map join question_generator_literals)
  /\ ends_with (qg_target_count ++ qg_begin ++ target_file ++ qg_end)
       (question_generator target_file)
  /\ in_order target_count_tiers qg_target_count
  /\ in_order
       ["**DO NOT return empty results**"; "do NOT return empty results**"]
       (question_generator target_file).
Proof.
  destruct floor_instructions as [F1 F2].
  split; [|split; [|split]].
  - apply question_generator_fill.
  - eexists. apply question_generator_tail.
  - exact tiers_in_order.
  - apply (in_order_refine _ [qg_scope_floor; qg_target_count]).
    + repeat constructor; [exact F1 | exact F2].
    + change (question_generator target_file)
        with (join (prompt_segments question_generator_literals target_file)).
      now apply (pick_in_order _ [4; 38] 0).
Qed.

Lemma tier_for_monotone (a b : Z) :
  (a <= b)%Z ->
  (fst (tier_for a) <= fst (tier_for b))%Z
  /\ (snd (tier_for a) <= snd (tier_for b))%Z.
Proof.
  intros L. unfold tier_for.
  destruct (Z.ltb_spec 1000 a), (Z.ltb_spec 1000 b),
    (Z.leb_spec 300 a), (Z.leb_spec 300 b); simpl; lia.
Qed.

Lemma listed_requests_follow_sizes :
  Forall (fun path => request_follows_size path = true)
    (quoted_paths qg_core_files).
Proof.
  apply Forall_forall. apply forallb_forall. vm_compute. reflexivity.
Qed.

Lemma scenario_requests :
  requested_count (question_generator risk_engine) = Some (100, 150)%Z
  /\ requested_count (question_generator pool_data) = Some (20, 50)%Z.
Proof. vm_compute. split; reflexivity. Qed.

(** C6: the count that a prompt of [question_generator] requests scales
    with the declared size of its target. Read with the target that its
    output-contract section names, the size that its listing declares for
    that file and the tiers of its target-count instruction, the prompt for
    contracts/RiskEngine.sol requests 100 to 150 questions and the prompt
    for contracts/PoolData.sol 20 to 50, strictly fewer; for every file of
    the listing the request is the tier of its declared size, and a tier
    never shrinks as the size grows. Every prompt, for any target at all,
    tells the consumer twice not to return an empty result. *)
Theorem target_count_scales :
  requested_count (question_generator risk_engine) = Some (100, 150)%Z
  /\ requested_count (question_generator pool_data) = Some (20, 50)%Z
  /\ requests_more (question_generator risk_engine)
       (question_generator pool_data)
  /\ Forall (fun path => request_follows_size path = true)
       (quoted_paths qg_core_files)
  /\ (forall a b : Z,
        (a <= b)%Z ->
        (fst (tier_for a) <= fst (tier_for b))%Z
        /\ (snd (tier_for a) <= snd (tier_for b))%Z)
  /\ (forall target_file,
        in_order
          ["**DO NOT return empty results**"; "do NOT return empty results**"]
          (question_generator target_file)).
Proof.
  destruct scenario_requests as [R P].
  split; [exact R|]. split; [exact P|]. split.
  { exists 100%Z, 150%Z, 20%Z, 50%Z. repeat split; trivial; lia. }
  split; [exact listed_requests_follow_sizes|].
  split; [exact tier_for_monotone|].
  intros target_file.
  now destruct (target_count_is_fixed target_file) as (_ & _ & _ & H).
Qed.

(** A target that the listing does not name is given no size, and the
    prompt requests no count for it; the floor instruction is all that
    remains. So it is for the last file of the inventory. *)
Example unlisted_target_without_count :
  requested_count (question_generator "contracts/Unknown.sol") = None
  /\ requested_count (question_generator token_id_path) = None.
Proof. vm_compute. split; reflexivity. Qed.

End TargetCount.

(** ** Totality and determinism of the composers *)

Module Totality.
Import Text TextFacts Templates.

Lemma prompt_segments_join (literals : list (list string)) (value : string) :
  join (prompt_segments literals value) = fill value (map join literals).
Proof. apply fill_groups. Qed.

Lemma fill_whole (literals : list (list string)) (first last value : string)
    (n : nat) :
  first <> EmptyString ->
  (forall v, prompt_segments literals v
             = first :: (firstn n (tl (prompt_segments literals v))
                         ++ [last])%list) ->
  whole literals first last value (fill value (map join literals)).
Proof.
  intros N E. rewrite <- prompt_segments_join.
  split; [|split; [|split]].
  - rewrite (E value), join_cons. intros H.
    apply append_eq_nil in H as [H _]. contradiction.
  - rewrite (E value). apply join_starts.
  - rewrite (E value).
    change (first :: (?x ++ [last])%list) with ((first :: x) ++ [last])%list.
    apply join_ends.
  - apply in_order_join.
Qed.

Lemma first_literals_nonempty :
  qf_persona <> EmptyString /\ vf_persona <> EmptyString
  /\ qg_context <> EmptyString.
Proof.
  split; [|split]; intros H;
    apply (f_equal (fun s => match s with EmptyString => true | _ => false end))
      in H; vm_compute in H; discriminate.
Qed.

Lemma prompts_whole (text : string) :
  whole question_format_literals qf_persona qf_closing text
    (question_format text)
  /\ whole validation_format_literals vf_persona vf_checklist text
       (validation_format text)
  /\ whole question_generator_literals qg_context qg_end text
       (question_generator text).
Proof.
  destruct first_literals_nonempty as (N1 & N2 & N3).
  split; [|split].
  - rewrite question_format_fill. now apply (fill_whole _ _ _ _ 15 N1).
  - rewrite validation_format_fill. now apply (fill_whole _ _ _ _ 17 N2).
  - rewrite question_generator_fill. now apply (fill_whole _ _ _ _ 40 N3).
Qed.

(** C9: each composer returns, for every text and the empty one too, a
    prompt that is not empty and has every segment of its template, from
    the first to the last, in order; a call never raises. *)
Theorem composers_total (text : string) (st : process) :
  (outcome (question_format_call text) st = Return (question_format text)
   /\ outcome (validation_format_call text) st
      = Return (validation_format text)
   /\ outcome (question_generator_call text) st
      = Return (question_generator text))
  /\ whole question_format_literals qf_persona qf_closing text
       (question_format text)
  /\ whole validation_format_literals vf_persona vf_checklist text
       (validation_format text)
  /\ whole question_generator_literals qg_context qg_end text
       (question_generator text).
Proof.
  split; [repeat split | apply prompts_whole].
Qed.

(** The degenerate inputs of the specification. *)
Example degenerate_inputs :
  question_format EmptyString <> EmptyString
  /\ validation_format EmptyString <> EmptyString
  /\ existsb (String.eqb "contracts/Unknown.sol") questions_generator = false
  /\ question_generator "contracts/Unknown.sol" <> EmptyString.
Proof.
  destruct (prompts_whole EmptyString) as ((H1 & _) & (H2 & _) & _).
  destruct (prompts_whole "contracts/Unknown.sol") as (_ & _ & (H3 & _)).
  repeat split; assumption.
Qed.

End Totality.

Module Determinism.
Import Text TextFacts Templates.

(** C2: a call of a composer yields a prompt that is the same whatever the
    state of the process, the fixed text of its template with the argument
    in the slots, and leaves the state as it found it: two calls with the
    same argument return the same bytes. *)
Theorem composers_deterministic (text : string) (st1 st2 : process) :
  (outcome (question_format_call text) st1
   = outcome (question_format_call text) st2
   /\ outcome (question_format_call text) st1
      = Return (fill text (map join question_format_literals))
   /\ state_after (question_format_call text) st1 = st1)
  /\ (outcome (validation_format_call text) st1
      = outcome (validation_format_call text) st2
      /\ outcome (validation_format_call text) st1
         = Return (fill text (map join validation_format_literals))
      /\ state_after (validation_format_call text) st1 = st1)
  /\ (outcome (question_generator_call text) st1
      = outcome (question_generator_call text) st2
      /\ outcome (question_generator_call text) st1
         = Return (fill text (map join question_generator_literals))
      /\ state_after (question_generator_call text) st1 = st1).
Proof.
  unfold outcome, state_after, question_format_call, validation_format_call,
    question_generator_call; cbn [fst snd].
  rewrite <- question_format_fill, <- validation_format_fill,
    <- question_generator_fill.
  repeat split.
Qed.

(** The second of two calls in a row returns what the first returned. *)
Lemma repeated_call_same_prompt (text : string) (st : process) :
  outcome (question_format_call text)
    (state_after (question_format_call text) st)
  = outcome (question_format_call text) st
  /\ outcome (validation_format_call text)
       (state_after (question_generator_call text) st)
     = outcome (validation_format_call text) st
  /\ outcome (question_generator_call text)
       (state_after (validation_format_call text) st)
     = outcome (question_generator_call text) st.
Proof. repeat split. Qed.

End Determinism.

(** ** The corpus loader *)

Module Loader.

Section AnyDecoder.

Variable json_load : string -> result json.

(** [get_questions] returns, whatever the file system holds. *)
Lemma get_questions_returns (fs : filesystem) :
  exists v, get_questions json_load fs = Return v.
Proof.
  unfold get_questions, open_read.
  destruct (fs "all_questions.json") as [|e|text]; simpl;
    try (now exists empty_list).
  destruct (json_load text) as [v|e]; simpl;
    [now exists v | now exists empty_list].
Qed.

Lemma get_questions_never_raises (fs : filesystem) :
  ~ raises (get_questions json_load fs).
Proof.
  intros [e H]. destruct (get_questions_returns fs) as [v E].
  rewrite E in H. discriminate.
Qed.

(** What is decoded is returned as it is. *)
Lemma get_questions_decoded (fs : filesystem) (text : string) (v : json) :
  fs corpus_path = Content text -> json_load text = Return v ->
  get_questions json_load fs = Return v.
Proof.
  intros F D. unfold get_questions, open_read.
  change "all_questions.json" with corpus_path. rewrite F. simpl.
  now rewrite D.
Qed.

End AnyDecoder.

(** C1: when the corpus file is absent, cannot be read, or holds a text
    that does not decode, [get_questions] returns the empty list, and no
    exception reaches its caller. *)
Theorem get_questions_fails_soft
    (json_load : string -> result json) (fs : filesystem)
    (H : corpus_unavailable json_load fs) :
  get_questions json_load fs = Return empty_list
  /\ ~ raises (get_questions json_load fs).
Proof.
  split; [|apply get_questions_never_raises].
  unfold get_questions, open_read. change "all_questions.json" with corpus_path.
  destruct H as [F|e F|text e F D]; rewrite F; simpl;
    try reflexivity.
  now rewrite D.
Qed.

(** The three kinds of failure, on Python's decoder: no file, a directory
    in place of the file, a text cut short. *)
Lemma get_questions_fails_soft_witness :
  load_corpus (corpus_only Absent) = Return empty_list
  /\ load_corpus (corpus_only (Unreadable IsADirectoryError))
     = Return empty_list
  /\ load_corpus (corpus_only (Content "[{")) = Return empty_list.
Proof.
  split; [|split].
  - apply (get_questions_fails_soft Json.loads (corpus_only Absent)).
    now apply corpus_absent.
  - apply (get_questions_fails_soft Json.loads
             (corpus_only (Unreadable IsADirectoryError))).
    now apply (corpus_unreadable _ _ IsADirectoryError).
  - apply (get_questions_fails_soft Json.loads (corpus_only (Content "[{"))).
    apply (corpus_malformed _ _ "[{"
             (JSONDecodeError
                "Expecting property name enclosed in double quotes"));
      reflexivity.
Defined.

(** C5, as the specification states it, fails: a corpus file that decodes
    to an object, a string or a number makes [get_questions] return that
    value, which is not the empty list. *)
Lemma non_list_corpus_is_returned :
  load_corpus (corpus_only (Content object_corpus))
  = Return (JDict [("q", JStr "x")])
  /\ load_corpus (corpus_only (Content string_corpus)) = Return (JStr "x")
  /\ load_corpus (corpus_only (Content number_corpus)) = Return (JInt 7)
  /\ load_corpus (corpus_only (Content object_corpus)) <> Return empty_list.
Proof.
  repeat split. discriminate.
Qed.

(** C5, amended: a corpus file whose text decodes makes [get_questions]
    return the decoded value as it is, whatever its shape; the loader does
    not look at the shape. *)
Theorem get_questions_returns_any_shape
    (json_load : string -> result json) (fs : filesystem)
    (text : string) (v : json)
    (F : fs corpus_path = Content text) (D : json_load text = Return v) :
  get_questions json_load fs = Return v.
Proof.
  exact (get_questions_decoded json_load fs text v F D).
Qed.

Lemma get_questions_returns_any_shape_witness :
  load_corpus (corpus_only (Content number_corpus)) = Return (JInt 7)
  /\ is_list (JInt 7) = false.
Proof.
  split; [|reflexivity].
  apply (get_questions_returns_any_shape Json.loads
           (corpus_only (Content number_corpus)) number_corpus (JInt 7));
    reflexivity.
Defined.

(** The scenario of the specification: a corpus of one record. *)
Example one_record_corpus :
  load_corpus
    (corpus_only
       (Content ("[{" ++ dq ++ "q" ++ dq ++ ":" ++ dq ++ "x" ++ dq ++ "}]")))
  = Return (JList [JDict [("q", JStr "x")]]).
Proof. reflexivity. Qed.

(** Loading the module cannot fail on the corpus. *)
Lemma import_module_returns (fs : filesystem) :
  exists st, import_module fs = Return st.
Proof.
  unfold import_module, load_corpus.
  destruct (get_questions_returns Json.loads fs) as [v ->].
  simpl. eauto.
Qed.

End Loader.

(** * Further properties of the code *)

(** ** Size and injectivity of a filled template *)

Module FillFacts.
Import Text TextFacts Templates.

Lemma append_cancel_l (a x y : string) : a ++ x = a ++ y -> x = y.
Proof.
  induction a as [|c a IH]; simpl; [trivial|].
  intros H. injection H as H. now apply IH.
Qed.

(** Two heads of equal length of one text are equal. *)
Lemma append_same_length (a b x y : string) :
  a ++ x = b ++ y -> String.length a = String.length b -> a = b.
Proof.
  revert b; induction a as [|c a IH]; intros [|d b]; simpl;
    try discriminate; [reflexivity|].
  intros H L. injection H as -> H. injection L as L.
  now rewrite (IH b H L).
Qed.

Lemma length_join_cons (x : string) (l : list string) :
  String.length (join (x :: l)) = String.length x + String.length (join l).
Proof. now rewrite join_cons, length_append. Qed.

(** A filled template is as long as its literal text and as many copies
    of the value as it has slots. *)
Lemma length_fill (value : string) (literals : list string) :
  String.length (fill value literals)
  = String.length (join literals)
    + (List.length literals - 1) * String.length value.
Proof.
  induction literals as [|l rest IH]; [reflexivity|].
  destruct rest as [|r rest'].
  - simpl. lia.
  - change (fill value (l :: r :: rest'))
      with (l ++ value ++ fill value (r :: rest')).
    rewrite length_join_cons, !length_append, IH.
    change (List.length (l :: r :: rest')) with (S (S (List.length rest'))).
    change (List.length (r :: rest')) with (S (List.length rest')).
    rewrite !Nat.sub_succ, !Nat.sub_0_r. simpl Nat.mul. lia.
Qed.

Lemma fill_size (value : string) (literals : list string) :
  size (fill value literals)
  = (size (join literals)
     + N.of_nat (List.length literals - 1) * size value)%N.
Proof.
  unfold size. now rewrite length_fill, Nat2N.inj_add, Nat2N.inj_mul.
Qed.

(** A template with a slot gives different texts for different values. *)
Lemma fill_injective (literals : list string) (v1 v2 : string) :
  2 <= List.length literals ->
  fill v1 literals = fill v2 literals -> v1 = v2.
Proof.
  intros L E.
  assert (Len : String.length v1 = String.length v2).
  { apply (f_equal String.length) in E. rewrite !length_fill in E.
    apply Nat.add_cancel_l in E.
    apply Nat.mul_cancel_l in E; [exact E | lia]. }
  destruct literals as [|l [|r rest]]; simpl in L; try lia.
  change (fill v1 (l :: r :: rest)) with (l ++ v1 ++ fill v1 (r :: rest)) in E.
  change (fill v2 (l :: r :: rest)) with (l ++ v2 ++ fill v2 (r :: rest)) in E.
  apply append_cancel_l in E.
  exact (append_same_length _ _ _ _ E Len).
Qed.

(** Two heads of one text: one of them opens the other. *)
Lemma heads_comparable (p q s : string) :
  starts_with p s -> starts_with q s ->
  starts_with p q \/ starts_with q p.
Proof.
  intros [r ->] [r' E].
  destruct (append_eq_split _ _ _ _ E) as [(d & -> & _)|(d & -> & _)].
  - left. now exists d.
  - right. now exists d.
Qed.

Lemma literal_sizes :
  size (join (map join question_format_literals)) = 18820%N
  /\ size (join (map join validation_format_literals)) = 29153%N
  /\ size (join (map join question_generator_literals)) = 16345%N.
Proof. vm_compute. repeat split. Qed.

End FillFacts.

Module Extras.
Import Text TextFacts Templates FillFacts.

(** X1: different arguments give different prompts, for each of the three
    composers: a prompt tells which question, report or target file it was
    composed for. *)
Theorem composers_injective (a b : string) (H : a <> b) :
  question_format a <> question_format b
  /\ validation_format a <> validation_format b
  /\ question_generator a <> question_generator b.
Proof.
  rewrite !question_format_fill, !validation_format_fill,
    !question_generator_fill.
  split; [|split]; intros E; apply H;
    apply (fill_injective _ a b) in E; trivial;
    apply Nat.leb_le; reflexivity.
Qed.

Lemma composers_injective_witness :
  question_format risk_engine <> question_format pool_data
  /\ validation_format risk_engine <> validation_format pool_data
  /\ question_generator risk_engine <> question_generator pool_data.
Proof.
  apply (composers_injective risk_engine pool_data).
  intros E. discriminate E.
Defined.

(** X2: the size of a prompt, in bytes of UTF-8: 18820 and the question
    for [question_format], 29153 and the report for [validation_format],
    16345 and fourteen times the target file name for
    [question_generator]. *)
Theorem prompt_sizes (text : string) :
  size (question_format text) = (18820 + size text)%N
  /\ size (validation_format text) = (29153 + size text)%N
  /\ size (question_generator text) = (16345 + 14 * size text)%N.
Proof.
  destruct literal_sizes as (S1 & S2 & S3).
  rewrite question_format_fill, validation_format_fill,
    question_generator_fill, !fill_size, S1, S2, S3.
  change (N.of_nat (List.length (map join question_format_literals) - 1))
    with 1%N.
  change (N.of_nat (List.length (map join validation_format_literals) - 1))
    with 1%N.
  change (N.of_nat (List.length (map join question_generator_literals) - 1))
    with 14%N.
  rewrite !N.mul_1_l. repeat split.
Qed.

Lemma openings_differ :
  starts_withb qf_persona vf_persona = false
  /\ starts_withb vf_persona qf_persona = false
  /\ starts_withb qf_persona qg_context = false
  /\ starts_withb qg_context qf_persona = false
  /\ starts_withb vf_persona qg_context = false
  /\ starts_withb qg_context vf_persona = false.
Proof. vm_compute. repeat split. Qed.

Lemma openings (a b c : string) :
  starts_with qf_persona (question_format a)
  /\ starts_with vf_persona (validation_format b)
  /\ starts_with qg_context (question_generator c).
Proof.
  split; [|split]; eexists; reflexivity.
Qed.

Lemma different_openings (p q s t : string) :
  starts_withb p q = false -> starts_withb q p = false ->
  starts_with p s -> starts_with q t -> s <> t.
Proof.
  intros F1 F2 Hp Hq E. subst t.
  destruct (heads_comparable p q s Hp Hq) as [C|C];
    apply starts_withb_spec in C; congruence.
Qed.

(** X3: prompts of two different composers are never the same text,
    whatever the arguments: each kind of prompt opens in its own way. *)
Theorem modes_never_collide (a b c : string) :
  question_format a <> validation_format b
  /\ question_format a <> question_generator c
  /\ validation_format b <> question_generator c.
Proof.
  destruct openings_differ as (D1 & D2 & D3 & D4 & D5 & D6).
  destruct (openings a b c) as (O1 & O2 & O3).
  split; [|split].
  - exact (different_openings _ _ _ _ D1 D2 O1 O2).
  - exact (different_openings _ _ _ _ D3 D4 O1 O3).
  - exact (different_openings _ _ _ _ D5 D6 O2 O3).
Qed.

End Extras.

(** ** The loader and the module beyond failure *)

Module LoaderExtras.
Import Loader.

(** X4: the result of [get_questions] does not tell an empty corpus from
    one that is missing, unreadable or malformed: a file that decodes to
    the empty list and a corpus that cannot be loaded give the same
    value. *)
Theorem empty_corpus_like_no_corpus
    (json_load : string -> result json) (fs_none fs_empty : filesystem)
    (text : string)
    (U : corpus_unavailable json_load fs_none)
    (F : fs_empty corpus_path = Content text)
    (D : json_load text = Return empty_list) :
  get_questions json_load fs_none = get_questions json_load fs_empty.
Proof.
  rewrite (get_questions_decoded json_load fs_empty text empty_list F D).
  unfold get_questions, open_read. change "all_questions.json" with corpus_path.
  destruct U as [A|e A|t e A B]; rewrite A; simpl; try reflexivity.
  now rewrite B.
Qed.

Lemma empty_corpus_like_no_corpus_witness :
  load_corpus (corpus_only Absent) = load_corpus (corpus_only (Content "[ ]")).
Proof.
  apply (empty_corpus_like_no_corpus Json.loads (corpus_only Absent)
           (corpus_only (Content "[ ]")) "[ ]").
  - now apply corpus_absent.
  - reflexivity.
  - reflexivity.
Defined.

End LoaderExtras.

(** ** Consistency of the fixed texts *)

Module KnowledgeBase.
Import Text TextFacts Templates.

Lemma agreeb_spec (t1 t2 : list (string * Z)) :
  agreeb t1 t2 = true -> agree t1 t2.
Proof.
  unfold agreeb, agree. rewrite forallb_forall. intros H name sz I.
  specialize (H _ I). simpl in H.
  destruct (size_of t2 name) as [sz'|]; [|discriminate].
  apply Z.eqb_eq in H. now subst.
Qed.



(** X7: the three listings declare the same size for every file they
    name; by these sizes the files over 1000 nSLOC are PanopticPool.sol and
    RiskEngine.sol, the two that the target-count instruction gives as
    large, PoolData.sol with its 42 nSLOC is under 300, and no file is left
    at a tier boundary. *)
Theorem declared_sizes_agree :
  agree qf_sizes vf_sizes
  /\ agree vf_sizes qf_sizes
  /\ agree qg_sizes qf_sizes
  /\ large_files qf_sizes = ["PanopticPool.sol"; "RiskEngine.sol"]
  /\ contains "(>1000 nSLOC like PanopticPool.sol, RiskEngine.sol)"
       qg_target_count
  /\ size_of qg_sizes "RiskEngine.sol" = Some 1294%Z
  /\ size_of qg_sizes "PoolData.sol" = Some 42%Z
  /\ Forall (fun '(_, sz) => sz <> 300%Z /\ sz <> 1000%Z /\ (0 < sz)%Z)
       qf_sizes.
Proof.
  split; [|split; [|split; [|split; [|split; [|split; [|split]]]]]].
  - apply agreeb_spec. vm_compute. reflexivity.
  - apply agreeb_spec. vm_compute. reflexivity.
  - apply agreeb_spec. vm_compute. reflexivity.
  - vm_compute. reflexivity.
  - apply containsb_spec. vm_compute. reflexivity.
  - vm_compute. reflexivity.
  - vm_compute. reflexivity.
  - vm_compute. repeat constructor; discriminate.
Qed.

End KnowledgeBase.
